(** * mem0-mcp: the tool dispatcher and dual-mode request router

    A shallow embedding of [src/index.ts] (class [Mem0MCPServer]): the mode
    selection of the constructor, the [CallToolRequestSchema] request handler
    and the three tool handlers [handleAddMemory], [handleSearchMemory] and
    [handleDeleteMemory].

    The mem0ai SDK, [fetch], the JavaScript built-ins the code calls and the
    process environment are the program's surroundings: they are the fields
    of a [World] record, and every theorem quantifies over it.  Tool
    arguments are arbitrary JSON values (the TypeScript interfaces are
    erased by the [as unknown as] casts), so the handlers are modelled on
    untyped values with JavaScript truthiness.

    What [console.info] prints is left out; the string conversions its
    template literals make at lines 396 and 547 are kept, since they can
    throw.  [console.error] lines are kept as [Diag] events of the trace. *)

From Stdlib Require Import QArith.
From stdpp Require Import gmap strings list fin_maps.

Open Scope string_scope.
Open Scope list_scope.

(** ** JavaScript values *)

Inductive number :=
| NaN
| Infinity (negative : bool)
| Finite (q : Q).

#[warnings="-register-all"]
Inductive jsval :=
| JUndefined
| JNull
| JBool (b : bool)
| JNum (n : number)
| JStr (s : string)
| JArr (l : list jsval)
| JObj (o : gmap string jsval).

(** An object literal is a finite map from property names to values; a
    property written with an [undefined] value is still a key. *)
Abbreviation obj := (gmap string jsval).

(** The literal [0.3] of lines 487 and 511.  Numbers are only carried
    around, never computed with, so a literal stands for its value. *)
Definition num_0_3 : jsval := JNum (Finite (3 # 10)).

(** ToBoolean: what [if (x)], [!x] and [x || y] test. *)
Definition truthy (v : jsval) : bool :=
  match v with
  | JUndefined | JNull => false
  | JBool b => b
  | JNum NaN => false
  | JNum (Infinity _) => true
  | JNum (Finite q) => negb (Qeq_bool q 0)
  | JStr s => negb (String.eqb s "")
  | JArr _ | JObj _ => true
  end.

(** [a || b] *)
Definition js_or (a b : jsval) : jsval := if truthy a then a else b.

(** [o.k] on an object: [undefined] when the property is absent. *)
Definition prop (o : obj) (k : string) : jsval := default JUndefined (o !! k).

(** [x !== undefined && x !== null] *)
Definition is_nullish (v : jsval) : bool :=
  match v with
  | JUndefined | JNull => true
  | _ => false
  end.

(** [if (v) options.k = v;] *)
Definition set_if (k : string) (v : jsval) (options : obj) : obj :=
  if truthy v then <[k := v]> options else options.

(** ** Errors and completions *)

Inductive ErrorCode := InvalidParams | MethodNotFound | InternalError.

(** What a [throw] carries: an [McpError] built by this code, or any other
    JavaScript value (an [Error] object of the SDK, a [TypeError], ...). *)
Inductive exn :=
| McpError (code : ErrorCode) (message : string)
| JsThrow (e : jsval).

(** How a call into the surroundings completes: it returns (a promise
    resolves) or it throws (a promise rejects). *)
Inductive completion (A : Type) :=
| Normal (a : A)
| Abrupt (e : jsval).
Arguments Normal {A} a.
Arguments Abrupt {A} e.

(** ** Backend requests and the trace *)

Inductive call :=
| CloudAdd (messages : jsval) (options : obj)          (* cloudClient.add *)
| CloudSearch (query : jsval) (options : obj)          (* cloudClient.search *)
| CloudDeleteMemory (memoryId : jsval)                 (* cloudClient.deleteMemory *)
| Fetch (url : string) (method : string) (headers : obj) (body : obj)
    (* fetch(url, { method, headers, body: JSON.stringify(body) }) *)
| LocalAdd (messages : jsval) (options : obj)          (* localClient.add *)
| LocalSearch (query : jsval) (options : obj)          (* localClient.search *)
| LocalDeleteMemory (memoryId : jsval)                 (* localClient.deleteMemory *)
| VectorStoreDelete (arg : obj).                       (* localClient._vectorstore.delete *)

Inductive event :=
| Backend (c : call)
| Diag (label : string) (payload : exn).               (* console.error(label, payload) *)

(** The clients the constructor builds. *)
Record MemoryClient := { clientOptions : obj }.
Record Memory := {
  config : obj;
  (* [this.localClient._vectorstore &&
      typeof this.localClient._vectorstore.delete === 'function'] *)
  vectorstore_delete_is_function : bool
}.

(** ** The surroundings *)

Record World := {
  (* process.env when the module is loaded *)
  process_env : gmap string string;
  (* import('mem0ai') *)
  import_mem0ai : completion unit;
  (* new MemoryClient(clientOptions): returns or throws *)
  new_MemoryClient : obj -> completion unit;
  (* new Memory(config): throws, or returns an instance on which
     [_vectorstore.delete] is a function or not *)
  new_Memory : obj -> completion bool;
  (* how a backend request completes, given the events so far *)
  respond : list event -> call -> completion jsval;
  (* parseInt(s, 10) *)
  parseInt10 : string -> jsval;
  (* JSON.stringify(v, null, 2) *)
  JSON_stringify : jsval -> jsval;
  (* String(n) of a number, String(o) of an object or array *)
  number_to_string : number -> string;
  object_to_string : jsval -> string;
  (* the message of the TypeError the engine raises on a value: reading
     [.message] of [undefined] or [null], converting to a string an object
     that has no usable [toString] *)
  type_error_message : jsval -> string;
  (* the [message] property the SDK gives an McpError built from a code
     and a message *)
  McpError_message : ErrorCode -> string -> string
}.

(** Lines 44-50: the assignments to [process.env] made before anything
    reads it. *)
Definition prelude_env (e : gmap string string) : gmap string string :=
  let e := <["DEBUG" := ""]> e in
  let e := <["NODE_DEBUG" := ""]> e in
  let e := <["DEBUG_COLORS" := "no"]> e in
  let e := <["NODE_ENV" :=
             match e !! "NODE_ENV" with
             | Some s => if String.eqb s "" then "production" else s
             | None => "production"
             end]> e in
  let e := <["LOG_LEVEL" := "error"]> e in
  let e := <["SILENT" := "true"]> e in
  <["QUIET" := "true"]> e.

(** [process.env.K] *)
Definition getenv (w : World) (k : string) : jsval :=
  match prelude_env (process_env w) !! k with
  | Some s => JStr s
  | None => JUndefined
  end.

(** Template-literal conversion [`${v}`]: the string it gives when it
    gives one (see [conversion_throws]). *)
Definition ToString (w : World) (v : jsval) : string :=
  match v with
  | JUndefined => "undefined"
  | JNull => "null"
  | JBool true => "true"
  | JBool false => "false"
  | JNum n => number_to_string w n
  | JStr s => s
  | JArr _ | JObj _ => object_to_string w v
  end.

Definition TypeError (w : World) (e : jsval) : jsval :=
  JObj (<["message" := JStr (type_error_message w e)]> ∅).

(** Whether [`${v}`] throws, for a value parsed from JSON.  An object is
    converted by its [toString]: an own property of that name is a JSON
    value, not a function, and [Object.prototype.valueOf] returns the
    object, so the conversion throws a TypeError; without one,
    [Object.prototype.toString] answers.  An array joins the conversions of
    its elements ([undefined] and [null] as the empty string). *)
Fixpoint conversion_throws (v : jsval) : bool :=
  match v with
  | JObj o => bool_decide (is_Some (o !! "toString"))
  | JArr l =>
      (fix any (l : list jsval) : bool :=
         match l with
         | [] => false
         | x :: l' =>
             match x with
             | JUndefined | JNull => false
             | _ => conversion_throws x
             end || any l'
         end) l
  | _ => false
  end.

(** [error.message]: a TypeError on [undefined] and [null], the property on
    an object, [undefined] on the other primitives. *)
Definition get_message (w : World) (error : jsval) : completion jsval :=
  match error with
  | JUndefined | JNull => Abrupt (TypeError w error)
  | JObj o => Normal (prop o "message")
  | _ => Normal JUndefined
  end.

(** [error.message] in a [catch (error)] block. *)
Definition exn_message (w : World) (error : exn) : completion jsval :=
  match error with
  | McpError code message => Normal (JStr (McpError_message w code message))
  | JsThrow e => get_message w e
  end.

(** [new Error(message)] *)
Definition Error_ (message : string) : jsval :=
  JObj (<["message" := JStr message]> ∅).

(** ** The server object and its construction *)

Record Server := {
  isCloudMode : bool;
  localClient : option Memory;
  cloudClient : option MemoryClient;
  isReady : bool
}.

Inductive process :=
| Exited (status : Z)           (* process.exit(status) *)
| Running (st : Server).

(** Lines 141-155 (and 403-404, 465-466, 552-553): the scoping identifiers
    read from the environment. *)
Definition orgId (w : World) : jsval :=
  js_or (getenv w "YOUR_ORG_ID") (getenv w "ORG_ID").
Definition projectId (w : World) : jsval :=
  js_or (getenv w "YOUR_PROJECT_ID") (getenv w "PROJECT_ID").

Definition cloud_clientOptions (w : World) : obj :=
  let clientOptions : obj :=
    <["apiKey" := getenv w "MEM0_API_KEY"]>
    (<["debug" := JBool false]>
    (<["verbose" := JBool false]>
    (<["silent" := JBool true]> ∅))) in
  let clientOptions := set_if "org_id" (orgId w) clientOptions in
  set_if "project_id" (projectId w) clientOptions.

(** Lines 132-170, synchronous part: the mode flag is set and the dynamic
    import is started; nothing else happens until the import settles. *)
Definition cloud_branch (w : World) : process :=
  Running {| isCloudMode := true; localClient := None;
             cloudClient := None; isReady := false |}.

(** Lines 137-170: the [.then] and [.catch] callbacks of the import. *)
Definition cloud_import_settled (w : World) (st : Server) : process :=
  match import_mem0ai w with
  | Abrupt _ => Exited 1                              (* .catch: process.exit(1) *)
  | Normal _ =>
      let clientOptions := cloud_clientOptions w in
      match new_MemoryClient w clientOptions with
      | Normal _ =>
          Running {| isCloudMode := isCloudMode st; localClient := localClient st;
                     cloudClient := Some {| clientOptions := clientOptions |};
                     isReady := true |}
      | Abrupt _ => Running st                        (* inner catch: console.error only *)
      end
  end.

(** Lines 188-209; [None] is the [process.exit(1)] of line 195. *)
Definition vectorStoreConfig (w : World) (embeddingModelDims : jsval) : option obj :=
  match getenv w "VECTOR_DB_PROVIDER" with
  | JStr "qdrant" =>
      let url := getenv w "VECTOR_DB_URL" in
      if negb (truthy url) then None
      else
        let collectionName := js_or (getenv w "VECTOR_DB_COLLECTION_NAME") (JStr "memories") in
        let apiKey := js_or (getenv w "VECTOR_DB_API_KEY") JUndefined in
        Some (<["provider" := JStr "qdrant"]>
             (<["config" := JObj (<["collectionName" := collectionName]>
                                 (<["embeddingModelDims" := embeddingModelDims]>
                                 (<["url" := url]>
                                 (<["apiKey" := apiKey]> ∅))))]> ∅))
  | _ =>
      let collectionName :=
        js_or (getenv w "VECTOR_DB_COLLECTION_NAME") (JStr "mem0_default_collection") in
      Some (<["provider" := JStr "memory"]>
           (<["config" := JObj (<["collectionName" := collectionName]> ∅)]> ∅))
  end.

(** Lines 176-214: the argument of [new Memory(...)]; [None] is the
    [process.exit(1)] of line 195. *)
Definition local_config (w : World) : option obj :=
  let openaiApiKey := getenv w "OPENAI_API_KEY" in
  let embeddingsModel := js_or (getenv w "EMBEDDING_MODEL") (JStr "text-embedding-3-large") in
  let embeddingModelDimsStr := js_or (getenv w "EMBEDDING_MODEL_DIMS") (JStr "3072") in
  let embeddingModelDims := parseInt10 w (ToString w embeddingModelDimsStr) in
  let embedderConfig : obj :=
    <["provider" := JStr "openai"]>
    (<["config" := JObj (<["apiKey" := openaiApiKey]>
                        (<["model" := embeddingsModel]> ∅))]> ∅) in
  match vectorStoreConfig w embeddingModelDims with
  | None => None
  | Some vs =>
      Some (<["embedder" := JObj embedderConfig]> (<["vectorStore" := JObj vs]> ∅))
  end.

(** Lines 171-220. *)
Definition local_branch (w : World) : process :=
  match local_config w with
  | None => Exited 1
  | Some config =>
      match new_Memory w config with
      | Normal has_delete =>
          Running {| isCloudMode := false;
                     localClient := Some {| config := config;
                                            vectorstore_delete_is_function := has_delete |};
                     cloudClient := None; isReady := true |}
      | Abrupt _ => Exited 1                          (* catch: process.exit(1) *)
      end
  end.

(** Lines 105-224: [new Mem0MCPServer()]. *)
Definition constructor (w : World) : process :=
  let mem0ApiKey := getenv w "MEM0_API_KEY" in
  let openaiApiKey := getenv w "OPENAI_API_KEY" in
  if truthy mem0ApiKey then cloud_branch w
  else if truthy openaiApiKey then local_branch w
  else Exited 1.

(** The states the process goes through: the one the constructor leaves,
    and, in cloud mode, the one after the import has settled. *)
Inductive lifecycle (w : World) : process -> Prop :=
| lc_constructed : lifecycle w (constructor w)
| lc_import_settled st :
    constructor w = Running st ->
    isCloudMode st = true ->
    lifecycle w (cloud_import_settled w st).

(** The state once initialisation is over. *)
Definition startup (w : World) : process :=
  match constructor w with
  | Running st => if isCloudMode st then cloud_import_settled w st else Running st
  | Exited status => Exited status
  end.

(** ** Running a request: trace, pending promises, exceptions *)

(** The run-time state a request handler works on: the events so far and
    the promises started but never awaited, each with the label its
    rejection is reported under. *)
Record Runtime := {
  trace : list event;
  pending : list (string * completion jsval)
}.

Inductive res (A : Type) :=
| Ret (a : A)
| Raise (e : exn).
Arguments Ret {A} a.
Arguments Raise {A} e.

Definition M (A : Type) : Type := Runtime -> res A * Runtime.

Definition ret {A} (a : A) : M A := fun rt => (Ret a, rt).

Definition throw {A} (e : exn) : M A := fun rt => (Raise e, rt).

Definition bind {A B} (m : M A) (k : A -> M B) : M B :=
  fun rt =>
    match m rt with
    | (Ret a, rt') => k a rt'
    | (Raise e, rt') => (Raise e, rt')
    end.

Notation "'let*' x ':=' m 'in' k" := (bind m (fun x => k))
  (at level 10, x name, m at level 100, k at level 200).

(** [try { m } catch (error) { h error }] *)
Definition try_catch {A} (m : M A) (h : exn -> M A) : M A :=
  fun rt =>
    match m rt with
    | (Ret a, rt') => (Ret a, rt')
    | (Raise e, rt') => h e rt'
    end.

Definition record (ev : event) (rt : Runtime) : Runtime :=
  {| trace := trace rt ++ [ev]; pending := pending rt |}.

(** [console.error(label, payload)] *)
Definition console_error (label : string) (payload : exn) : M unit :=
  fun rt => (Ret tt, record (Diag label payload) rt).

(** [await c]: the request is made and the handler waits for it. *)
Definition await (w : World) (c : call) : M jsval :=
  fun rt =>
    match respond w (trace rt) c with
    | Normal v => (Ret v, record (Backend c) rt)
    | Abrupt e => (Raise (JsThrow e), record (Backend c) rt)
    end.

(** [void (async () => { try { await c; } catch (err) {
    console.error(label, err); } })()]: the request is made, its promise is
    left pending, and the handler goes on at once.  (A call that throws
    at once is caught by the same [try] and reported the same way.) *)
Definition fire_and_forget (w : World) (c : call) (label : string) : M unit :=
  fun rt =>
    (Ret tt,
     {| trace := trace rt ++ [Backend c];
        pending := pending rt ++ [(label, respond w (trace rt) c)] |}).

(** A value thrown inside a [catch] block while reading [error.message]. *)
Definition lift {A} (c : completion A) : M A :=
  match c with
  | Normal a => ret a
  | Abrupt e => throw (JsThrow e)
  end.

(** [`... ${v} ...`] *)
Definition template (w : World) (v : jsval) : M string :=
  if conversion_throws v then throw (JsThrow (TypeError w v))
  else ret (ToString w v).

(** The pending promises settle after the handler has returned, each in
    its own time: a rejection is reported with [console.error] and goes
    nowhere else. *)
Definition settle_one (p : string * completion jsval) (tr : list event) : list event :=
  match snd p with
  | Normal _ => tr
  | Abrupt err => tr ++ [Diag (fst p) (JsThrow err)]
  end.

(** The [i]-th pending promise settles. *)
Definition settle_at (i : nat) (rt : Runtime) : Runtime :=
  match pending rt !! i with
  | Some p => {| trace := settle_one p (trace rt); pending := delete i (pending rt) |}
  | None => rt
  end.

(** Promises settle one after the other, in the order [schedule] gives. *)
Definition settle (schedule : list nat) (rt : Runtime) : Runtime :=
  fold_left (fun rt i => settle_at i rt) schedule rt.

(** ** Tool responses *)

Record content_item := { type : string; text : jsval }.
Record ToolResponse := { content : list content_item }.

(** [{ content: [{ type: "text", text: t }] }] *)
Definition text_response (t : jsval) : ToolResponse :=
  {| content := [ {| type := "text"; text := t |} ] |}.

(** The branch the three handlers take:
    [if (this.isCloudMode && this.cloudClient) ... else if (this.localClient)
     ... else ...]. *)
Inductive active :=
| ActiveCloud (c : MemoryClient)
| ActiveLocal (m : Memory)
| NoClient.

Definition active_client (st : Server) : active :=
  match isCloudMode st, cloudClient st with
  | true, Some c => ActiveCloud c
  | _, _ =>
      match localClient st with
      | Some m => ActiveLocal m
      | None => NoClient
      end
  end.

Definition no_client {A} : M A :=
  throw (McpError InternalError "No memory client is available").

(** ** The tool handlers *)

(** Lines 405-413, 469-481 and 556-566: what every cloud options object
    starts from and the scoping identifiers added to it. *)
Definition scope_options (w : World) (options : obj) : obj :=
  set_if "project_id" (projectId w) (set_if "org_id" (orgId w) options).

(** Line 399: [[{ role: "user", content }]]. *)
Definition add_messages (args : obj) : jsval :=
  JArr [JObj (<["role" := JStr "user"]> (<["content" := prop args "content"]> ∅))].

(** Lines 405-413: the options of a cloud write. *)
Definition cloud_add_options (w : World) (args : obj) : obj :=
  let options : obj :=
    <["user_id" := prop args "userId"]> (<["version" := JStr "v2"]> ∅) in
  let options := scope_options w options in
  let options := set_if "run_id" (prop args "sessionId") options in
  let options := set_if "agent_id" (prop args "agentId") options in
  set_if "metadata" (prop args "metadata") options.

(** Line 427: [{ userId, sessionId, metadata }]. *)
Definition local_add_options (args : obj) : obj :=
  <["userId" := prop args "userId"]>
  (<["sessionId" := prop args "sessionId"]>
  (<["metadata" := prop args "metadata"]> ∅)).

(** Lines 385-446. *)
Definition handleAddMemory (w : World) (st : Server) (args : obj) : M ToolResponse :=
  let content := prop args "content" in
  let userId := prop args "userId" in
  if negb (truthy content) then
    throw (McpError InvalidParams "Missing required argument: content")
  else if negb (truthy userId) then
    throw (McpError InvalidParams "Missing required argument: userId")
  else
    (* console.info(`Queueing memory addition for user ${userId}`) *)
    let* _ := template w userId in
    let messages := add_messages args in
    let* _ :=
      match active_client st with
      | ActiveCloud cloudClient =>
          fire_and_forget w (CloudAdd messages (cloud_add_options w args))
                          "Async error adding memory (cloud):"
      | ActiveLocal localClient =>
          fire_and_forget w (LocalAdd messages (local_add_options args))
                          "Async error adding memory (local):"
      | NoClient => no_client
      end in
    ret (text_response (JStr "Memory addition queued successfully")).

(** Lines 483-488 and 508-512: a threshold that is [undefined] or [null]
    is replaced by 0.3. *)
Definition set_threshold (threshold : jsval) (options : obj) : obj :=
  if negb (is_nullish threshold) then <["threshold" := threshold]> options
  else <["threshold" := num_0_3]> options.

(** Lines 500-503 and 524-527: the [catch] of a search. *)
Definition search_failed {A} (w : World) (label : string) (error : exn) : M A :=
  let* _ := console_error label error in
  let* message := lift (exn_message w error) in
  throw (McpError InternalError ("Error searching memories: " ++ ToString w message)).

(** Lines 469-488: the options of a cloud search. *)
Definition cloud_search_options (w : World) (args : obj) : obj :=
  let options : obj :=
    <["user_id" := prop args "userId"]> (<["version" := JStr "v2"]> ∅) in
  let options := scope_options w options in
  let options := set_if "run_id" (prop args "sessionId") options in
  let options := set_if "agent_id" (prop args "agentId") options in
  let options := set_if "filters" (prop args "filters") options in
  set_threshold (prop args "threshold") options.

(** Lines 507-512: the options of a local search. *)
Definition local_search_options (args : obj) : obj :=
  let options : obj :=
    <["userId" := prop args "userId"]>
    (<["sessionId" := prop args "sessionId"]>
    (<["filters" := prop args "filters"]> ∅)) in
  set_threshold (prop args "threshold") options.

(** Lines 451-531. *)
Definition handleSearchMemory (w : World) (st : Server) (args : obj) : M ToolResponse :=
  let query := prop args "query" in
  let userId := prop args "userId" in
  if negb (truthy query) then
    throw (McpError InvalidParams "Missing required argument: query")
  else if negb (truthy userId) then
    throw (McpError InvalidParams "Missing required argument: userId")
  else
    match active_client st with
    | ActiveCloud cloudClient =>
        try_catch
          (let options := cloud_search_options w args in
           let* results := await w (CloudSearch query options) in
           ret (text_response (JSON_stringify w results)))
          (search_failed w "Error searching memories using cloud API:")
    | ActiveLocal localClient =>
        try_catch
          (let options := local_search_options args in
           let* results := await w (LocalSearch query options) in
           ret (text_response (JSON_stringify w results)))
          (search_failed w "Error searching memories using local storage:")
    | NoClient => no_client
    end.

(** The success response of a delete, lines 587-589 and 617-619. *)
Definition deleted (w : World) (memoryId : jsval) : ToolResponse :=
  text_response (JStr ("Memory " ++ ToString w memoryId ++ " deleted successfully")).

(** Lines 576-583: the request of the cloud fallback. *)
Definition fallback_fetch (w : World) (memoryId : jsval) (options : obj) : call :=
  Fetch ("https://api.mem0.ai/v2/memories/" ++ ToString w memoryId)
        "DELETE"
        (<["Authorization" := JStr ("Token " ++ ToString w (getenv w "MEM0_API_KEY"))]>
        (<["Content-Type" := JStr "application/json"]> ∅))
        options.

(** Lines 556-566: the options of a cloud delete. *)
Definition cloud_delete_options (w : World) (args : obj) : obj :=
  let options : obj :=
    <["memory_id" := prop args "memoryId"]>
    (<["user_id" := prop args "userId"]>
    (<["version" := JStr "v2"]> ∅)) in
  let options := scope_options w options in
  set_if "agent_id" (prop args "agentId") options.

(** Lines 536-627. *)
Definition handleDeleteMemory (w : World) (st : Server) (args : obj) : M ToolResponse :=
  let memoryId := prop args "memoryId" in
  let userId := prop args "userId" in
  if negb (truthy memoryId) then
    throw (McpError InvalidParams "Missing required argument: memoryId")
  else if negb (truthy userId) then
    throw (McpError InvalidParams "Missing required argument: userId")
  else
    (* console.info(`Attempting to delete memory with ID ${memoryId} for
       user ${userId}`) *)
    let* _ := template w memoryId in
    let* _ := template w userId in
    match active_client st with
    | ActiveCloud cloudClient =>
        try_catch
          (let options := cloud_delete_options w args in
           let* _ :=
             try_catch
               (await w (CloudDeleteMemory memoryId))
               (fun innerError => await w (fallback_fetch w memoryId options)) in
           ret (deleted w memoryId))
          (fun error =>
             let* _ := console_error "Error deleting memory using cloud API:" error in
             let* message := lift (exn_message w error) in
             throw (McpError InternalError
                      ("Error deleting memory: " ++ ToString w message)))
    | ActiveLocal localClient =>
        try_catch
          (let* _ :=
             try_catch
               (await w (LocalDeleteMemory memoryId))
               (fun innerError =>
                  if vectorstore_delete_is_function localClient then
                    await w (VectorStoreDelete (<["ids" := JArr [memoryId]]> ∅))
                  else
                    throw (JsThrow (Error_ "Local client does not support memory deletion"))) in
           ret (deleted w memoryId))
          (fun error =>
             let* _ := console_error "Error deleting memory using local storage:" error in
             let* message := lift (exn_message w error) in
             throw (McpError InternalError
                      ("Error deleting memory: " ++
                       ToString w (js_or message
                                     (JStr "Local client does not support memory deletion")))))
    | NoClient => no_client
    end.

(** ** The request handler, lines 350-379 *)

(** Lines 355-370: the body of the [try]. *)
Definition dispatch (w : World) (st : Server) (name : string) (arguments : option obj)
  : M ToolResponse :=
  let args := default ∅ arguments in
  if String.eqb name "add_memory" then handleAddMemory w st args
  else if String.eqb name "search_memory" then handleSearchMemory w st args
  else if String.eqb name "delete_memory" then handleDeleteMemory w st args
  else throw (McpError MethodNotFound ("Unknown tool: " ++ name)).

(** Lines 371-378: the [catch]. *)
Definition tool_failed {A} (w : World) (error : exn) : M A :=
  match error with
  | McpError _ _ => throw error
  | JsThrow e =>
      let* _ := console_error "Error executing tool:" error in
      let* message := lift (get_message w e) in
      throw (McpError InternalError
               ("Error executing tool: " ++
                ToString w (js_or message (JStr "Unknown error"))))
  end.

Definition call_tool (w : World) (st : Server) (name : string) (arguments : option obj)
  : M ToolResponse :=
  if negb (isReady st) then
    throw (McpError InternalError
             "Memory client is still initializing. Please try again in a moment.")
  else
    try_catch (dispatch w st name arguments) (tool_failed w).

(** What the caller of a tool gets, from a fresh run-time state. *)
Definition fresh : Runtime := {| trace := []; pending := [] |}.

(** The backend requests among the events. *)
Definition backend_calls (tr : list event) : list call :=
  omap (fun ev => match ev with Backend c => Some c | Diag _ _ => None end) tr.

(** ** Rejected calls *)

(** The tools of the [ListToolsRequestSchema] handler (lines 256-347) and
    the [required] list of each input schema. *)
Definition tools : list string := ["add_memory"; "search_memory"; "delete_memory"].

Definition required (name : string) : list string :=
  if String.eqb name "add_memory" then ["content"; "userId"]
  else if String.eqb name "search_memory" then ["query"; "userId"]
  else if String.eqb name "delete_memory" then ["memoryId"; "userId"]
  else [].

(** A required argument is missing, empty or otherwise falsy. *)
Definition lacks_required (name : string) (args : obj) : Prop :=
  exists k, k ∈ required name /\ truthy (prop args k) = false.

(** The call fails with [code] and leaves the run-time state as it was:
    no request was made, no promise is pending. *)
Definition rejected {A} (r : res A * Runtime) (code : ErrorCode) (rt : Runtime) : Prop :=
  exists message, r = (Raise (McpError code message), rt).


(** ** Concrete surroundings, for the examples *)

Definition example_world (env : gmap string string)
    (client : completion unit) (memory : completion bool)
    (rsp : list event -> call -> completion jsval) : World :=
  {| process_env := env;
     import_mem0ai := Normal tt;
     new_MemoryClient := fun _ => client;
     new_Memory := fun _ => memory;
     respond := rsp;
     parseInt10 := fun _ => JNum NaN;
     JSON_stringify := fun v => v;
     number_to_string := fun _ => "0";
     object_to_string := fun _ => "[object Object]";
     type_error_message := fun _ => "Cannot read properties of undefined";
     McpError_message := fun _ message => message |}.

(** A backend on which every request succeeds, and one on which every
    request fails. *)
Definition all_ok : list event -> call -> completion jsval :=
  fun _ _ => Normal JUndefined.
Definition all_fail : list event -> call -> completion jsval :=
  fun _ _ => Abrupt (Error_ "backend down").

Definition cloud_env : gmap string string :=
  <["MEM0_API_KEY" := "m0-key"]> (<["OPENAI_API_KEY" := "sk-key"]> ∅).
Definition local_env : gmap string string :=
  <["OPENAI_API_KEY" := "sk-key"]> ∅.

Definition cloud_world rsp : World := example_world cloud_env (Normal tt) (Normal true) rsp.
Definition local_world has_delete rsp : World :=
  example_world local_env (Normal tt) (Normal has_delete) rsp.

(** The server object while the import is pending, and once a cloud client
    has been built. *)
Definition cloud_pending : Server :=
  {| isCloudMode := true; localClient := None; cloudClient := None; isReady := false |}.

Definition cloud_ready (w : World) : Server :=
  {| isCloudMode := true; localClient := None;
     cloudClient := Some {| clientOptions := cloud_clientOptions w |};
     isReady := true |}.

Definition state_of (p : process) : Server :=
  match p with
  | Running st => st
  | Exited _ => cloud_pending
  end.

Definition local_ready (w : World) : Server := state_of (constructor w).

Definition no_key_world : World := example_world ∅ (Normal tt) (Normal true) all_ok.

(** MEM0_API_KEY present but empty, OPENAI_API_KEY set. *)
Definition empty_cloud_key_world : World :=
  example_world (<["MEM0_API_KEY" := ""]> local_env) (Normal tt) (Normal true) all_ok.

Definition hello_u1 : obj := <["content" := JStr "hello"]> (<["userId" := JStr "u1"]> ∅).

(** A cloud key of blanks: the SDK's client constructor refuses it. *)
Definition blank_key_world : World :=
  example_world (<["MEM0_API_KEY" := "   "]> ∅)
                (Abrupt (Error_ "Mem0 API key cannot be empty")) (Normal true) all_ok.

Definition q_u1 : obj := <["query" := JStr "q"]> (<["userId" := JStr "u1"]> ∅).

(** The fallback requests of a delete: the raw network delete of the cloud
    branch and the vector-store delete of the local branch. *)
Definition is_fallback (c : call) : bool :=
  match c with
  | Fetch _ _ _ _ | VectorStoreDelete _ => true
  | _ => false
  end.

Definition fallback_attempts (tr : list event) : nat :=
  length (List.filter is_fallback (backend_calls tr)).

Definition m1_u1 : obj := <["memoryId" := JStr "m1"]> (<["userId" := JStr "u1"]> ∅).

(** [{ ok: false, status: 500 }]: what [fetch] resolves with on a server
    error. *)
Definition http_500 : jsval :=
  JObj (<["ok" := JBool false]> (<["status" := JNum (Finite 500)]> ∅)).

(** A cloud backend whose client has no working [deleteMemory] and whose
    HTTP API answers the raw delete with status 500. *)
Definition primary_throws_fetch_500 : list event -> call -> completion jsval :=
  fun _ c =>
    match c with
    | Fetch _ _ _ _ => Normal http_500
    | _ => Abrupt (Error_ "this.cloudClient.deleteMemory is not a function")
    end.

(** What [if (v) options.k = v] leaves under [k] in fresh options. *)
Definition scope_value (v : jsval) : option jsval :=
  if truthy v then Some v else None.






(** ** The output guard, lines 14-50 *)

(** [s.includes(sub)] *)
Fixpoint includes (s sub : string) : bool :=
  String.prefix sub s ||
  match s with
  | EmptyString => false
  | String _ s' => includes s' sub
  end.

(** The function [console.log] is bound to: Node's own, which writes a
    line to stdout, or the closure of lines 22-31 around the function it
    replaced. *)
Inductive log_function :=
| native_log
| safe_log (originalConsoleLog : log_function).

(** [console]: the current [console.log], and the lines written so far to
    stdout and to stderr, each line the list of the values printed. *)
Record Console := {
  console_log : log_function;
  stdout : list (list jsval);
  stderr : list (list jsval)
}.

(** Line 25: [stack.includes('mem0ai') || stack.includes('mem0-mcp')], on
    [new Error().stack || '']. *)
Definition from_mem0 (stack : option string) : bool :=
  let stack := default "" stack in
  includes stack "mem0ai" || includes stack "mem0-mcp".

(** Calling a [console.log] function.  [stack n] is the stack the [n]-th
    closure on the way down sees in its [new Error()]. *)
Fixpoint apply_log (f : log_function) (stack : nat -> option string)
    (args : list jsval) (c : Console) : Console :=
  match f with
  | native_log =>
      {| console_log := console_log c; stdout := stdout c ++ [args]; stderr := stderr c |}
  | safe_log originalConsoleLog =>
      if from_mem0 (stack 0%nat) then
        (* console.error('[redirected log]', ...args) *)
        {| console_log := console_log c; stdout := stdout c;
           stderr := stderr c ++ [JStr "[redirected log]" :: args] |}
      else
        apply_log originalConsoleLog (fun n => stack (S n)) args c
  end.

(** [console.log(...args)] *)
Definition log (stack : nat -> option string) (args : list jsval) (c : Console) : Console :=
  apply_log (console_log c) stack args c.

Record SafeLogger := { originalConsoleLog : log_function }.

(** Lines 17-32: [new SafeLogger()]. *)
Definition new_SafeLogger (c : Console) : SafeLogger * Console :=
  ({| originalConsoleLog := console_log c |},
   {| console_log := safe_log (console_log c); stdout := stdout c; stderr := stderr c |}).

(** Lines 35-37. *)
Definition restore (safeLogger : SafeLogger) (c : Console) : Console :=
  {| console_log := originalConsoleLog safeLogger; stdout := stdout c; stderr := stderr c |}.

(** ** Shutdown, lines 226-248 and 641-647 *)

(** The process as the shutdown handlers see it: the console, whether
    [server.close()] has been called, and the exit status once
    [process.exit] has run. *)
Record Host := {
  console : Console;
  server_closed : bool;
  exit_status : option Z
}.

(** Lines 243-248, the handler of [uncaughtException]. *)
Definition on_uncaughtException (safeLogger : SafeLogger) (h : Host) : Host :=
  {| console := restore safeLogger (console h);
     server_closed := server_closed h;
     exit_status := Some 1%Z |}.

(** Lines 226-240, the handler of SIGINT and of SIGTERM; [close] is how
    [await this.server.close()] completes.  When it rejects, the promise of
    the async listener rejects with nothing to handle it, which raises
    [uncaughtException]: the handler of lines 243-248 runs. *)
Definition on_signal (safeLogger : SafeLogger) (close : completion unit) (h : Host) : Host :=
  let restored := restore safeLogger (console h) in
  match close with
  | Normal _ => {| console := restored; server_closed := true; exit_status := Some 0%Z |}
  | Abrupt _ =>
      on_uncaughtException safeLogger
        {| console := restored; server_closed := true; exit_status := exit_status h |}
  end.

(** Lines 642-647: [server.start().catch(...)]. *)
Definition on_start_failed (safeLogger : SafeLogger) (h : Host) : Host :=
  {| console := restore safeLogger (console h);
     server_closed := server_closed h;
     exit_status := Some 1%Z |}.

Inductive shutdown_event :=
| SIGINT (close : completion unit)
| SIGTERM (close : completion unit)
| uncaughtException
| start_failed.

Definition shutdown (safeLogger : SafeLogger) (ev : shutdown_event) (h : Host) : Host :=
  match ev with
  | SIGINT close | SIGTERM close => on_signal safeLogger close h
  | uncaughtException => on_uncaughtException safeLogger h
  | start_failed => on_start_failed safeLogger h
  end.

(** ** The tool list, lines 256-347 *)

Record SchemaProperty := {
  property_name : string;
  property_type : string;
  property_description : string
}.

Record Tool := {
  tool_name : string;
  tool_description : string;
  inputSchema_properties : list SchemaProperty;
  inputSchema_required : list string
}.

Definition listTools : list Tool :=
  [ {| tool_name := "add_memory";
       tool_description := "Stores a piece of text as a memory in Mem0.";
       inputSchema_properties :=
         [ {| property_name := "content"; property_type := "string";
              property_description := "The text content to store as memory." |};
           {| property_name := "userId"; property_type := "string";
              property_description := "User ID to associate with the memory." |};
           {| property_name := "sessionId"; property_type := "string";
              property_description := "Optional session ID to associate with the memory." |};
           {| property_name := "agentId"; property_type := "string";
              property_description :=
                "Optional agent ID to associate with the memory (for cloud API)." |};
           {| property_name := "metadata"; property_type := "object";
              property_description := "Optional key-value metadata." |} ];
       inputSchema_required := ["content"; "userId"] |};
    {| tool_name := "search_memory";
       tool_description := "Searches stored memories in Mem0 based on a query.";
       inputSchema_properties :=
         [ {| property_name := "query"; property_type := "string";
              property_description := "The search query." |};
           {| property_name := "userId"; property_type := "string";
              property_description := "User ID to filter search." |};
           {| property_name := "sessionId"; property_type := "string";
              property_description := "Optional session ID to filter search." |};
           {| property_name := "agentId"; property_type := "string";
              property_description := "Optional agent ID to filter search (for cloud API)." |};
           {| property_name := "filters"; property_type := "object";
              property_description := "Optional key-value filters for metadata." |};
           {| property_name := "threshold"; property_type := "number";
              property_description :=
                "Optional similarity threshold for results (for cloud API)." |} ];
       inputSchema_required := ["query"; "userId"] |};
    {| tool_name := "delete_memory";
       tool_description := "Deletes a specific memory by ID from Mem0.";
       inputSchema_properties :=
         [ {| property_name := "memoryId"; property_type := "string";
              property_description := "The unique ID of the memory to delete." |};
           {| property_name := "userId"; property_type := "string";
              property_description := "User ID associated with the memory." |};
           {| property_name := "agentId"; property_type := "string";
              property_description :=
                "Optional agent ID associated with the memory (for cloud API)." |} ];
       inputSchema_required := ["memoryId"; "userId"] |} ].

(** The schema of a tool, by name. *)
Definition schema_of (name : string) : option Tool :=
  List.find (fun t => String.eqb (tool_name t) name) listTools.

(** The argument names a tool's schema declares. *)
Definition declared (name : string) : list string :=
  match schema_of name with
  | Some t => map property_name (inputSchema_properties t)
  | None => []
  end.

(** A run of [console.log] calls, each with the stacks it is made under. *)
Definition logs (calls : list ((nat -> option string) * list jsval)) (c : Console) : Console :=
  fold_left (fun c call => log (fst call) (snd call) c) calls c.

(** A required argument of the tool's schema is missing, empty or otherwise
    falsy. *)
Definition missing_required (name : string) (args : obj) : Prop :=
  exists t k, schema_of name = Some t /\ k ∈ inputSchema_required t /\
              truthy (prop args k) = false.

(** The request a search makes, by mode. *)
Definition search_request (w : World) (st : Server) (args : obj) : option call :=
  match active_client st with
  | ActiveCloud _ => Some (CloudSearch (prop args "query") (cloud_search_options w args))
  | ActiveLocal _ => Some (LocalSearch (prop args "query") (local_search_options args))
  | NoClient => None
  end.

(** The label a failed search is reported under, lines 501 and 525. *)
Definition search_label (st : Server) : string :=
  match active_client st with
  | ActiveCloud _ => "Error searching memories using cloud API:"
  | _ => "Error searching memories using local storage:"
  end.

(** The primary request of a delete, by mode. *)
Definition delete_primary (st : Server) (args : obj) : option call :=
  match active_client st with
  | ActiveCloud _ => Some (CloudDeleteMemory (prop args "memoryId"))
  | ActiveLocal _ => Some (LocalDeleteMemory (prop args "memoryId"))
  | NoClient => None
  end.




(** What a run added to the run-time state: the requests [cs] made, in
    order, and the promises [ps] left pending; the events of before are all
    still there. *)
Definition extends (rt rt' : Runtime) (cs : list call)
    (ps : list (string * completion jsval)) : Prop :=
  backend_calls (trace rt') = backend_calls (trace rt) ++ cs /\
  (exists evs, trace rt' = trace rt ++ evs) /\
  pending rt' = pending rt ++ ps.

(** Local mode asked to use qdrant, with no VECTOR_DB_URL. *)
Definition qdrant_without_url_world : World :=
  example_world (<["VECTOR_DB_PROVIDER" := "qdrant"]> local_env)
                (Normal tt) (Normal true) all_ok.

(** The first required argument of a tool that is missing or falsy. *)
Definition first_missing (name : string) (args : obj) : option string :=
  List.find (fun k => negb (truthy (prop args k))) (required name).

(** A local backend on which every delete fails with an [Error] that has
    no message. *)
Definition fails_silently : list event -> call -> completion jsval :=
  fun _ _ => Abrupt (Error_ "").

(** A backend whose promises reject with [null]. *)
Definition rejects_with_null : list event -> call -> completion jsval :=
  fun _ _ => Abrupt JNull.

(** A userId that is an object with an own [toString] property:
    [{ "toString": "x" }]. *)
Definition unprintable : jsval := JObj (<["toString" := JStr "x"]> ∅).

(** * Properties *)

(** ** Basic facts *)

Lemma truthy_nonempty_string s : s ≠ "" -> truthy (JStr s) = true.
Proof. destruct s; [congruence | reflexivity]. Qed.

Lemma falsy_missing (args : obj) k : args !! k = None -> truthy (prop args k) = false.
Proof. unfold prop. intros ->. reflexivity. Qed.

Lemma falsy_empty (args : obj) k : args !! k = Some (JStr "") -> truthy (prop args k) = false.
Proof. unfold prop. intros ->. reflexivity. Qed.

Lemma dispatch_add w st a :
  dispatch w st "add_memory" a = handleAddMemory w st (default ∅ a).
Proof. reflexivity. Qed.

Lemma dispatch_search w st a :
  dispatch w st "search_memory" a = handleSearchMemory w st (default ∅ a).
Proof. reflexivity. Qed.

Lemma dispatch_delete w st a :
  dispatch w st "delete_memory" a = handleDeleteMemory w st (default ∅ a).
Proof. reflexivity. Qed.

Lemma dispatch_unknown w st name a rt :
  name ≠ "add_memory" -> name ≠ "search_memory" -> name ≠ "delete_memory" ->
  dispatch w st name a rt = (Raise (McpError MethodNotFound ("Unknown tool: " ++ name)), rt).
Proof.
  intros Ha Hs Hd. unfold dispatch.
  apply String.eqb_neq in Ha, Hs, Hd. rewrite Ha, Hs, Hd. reflexivity.
Qed.

(** An [McpError] raised by a handler passes the [catch] of the request
    handler unchanged. *)
Lemma call_tool_mcp w st name a rt code msg rt' :
  isReady st = true ->
  dispatch w st name a rt = (Raise (McpError code msg), rt') ->
  call_tool w st name a rt = (Raise (McpError code msg), rt').
Proof.
  intros Hr Hd. unfold call_tool. rewrite Hr. cbn [negb].
  unfold try_catch. rewrite Hd. reflexivity.
Qed.

Lemma call_tool_ret w st name a rt r rt' :
  isReady st = true ->
  dispatch w st name a rt = (Ret r, rt') ->
  call_tool w st name a rt = (Ret r, rt').
Proof.
  intros Hr Hd. unfold call_tool. rewrite Hr. cbn [negb].
  unfold try_catch. rewrite Hd. reflexivity.
Qed.

(** *** The states of the lifecycle *)

Lemma local_branch_running w st :
  local_branch w = Running st ->
  isCloudMode st = false /\ cloudClient st = None /\
  is_Some (localClient st) /\ isReady st = true.
Proof.
  unfold local_branch.
  destruct (local_config w) as [config|]; [|discriminate].
  destruct (new_Memory w config) as [b|e]; [|discriminate].
  intros [= <-]. simpl. eauto.
Qed.

Lemma constructor_running w st :
  constructor w = Running st ->
  isCloudMode st = truthy (getenv w "MEM0_API_KEY") /\
  (if isCloudMode st
   then localClient st = None /\ cloudClient st = None /\ isReady st = false
   else cloudClient st = None /\ is_Some (localClient st) /\ isReady st = true).
Proof.
  unfold constructor.
  destruct (truthy (getenv w "MEM0_API_KEY")).
  - intros [= <-]. simpl. auto.
  - destruct (truthy (getenv w "OPENAI_API_KEY")); [|discriminate].
    intros H. apply local_branch_running in H as (-> & ? & ? & ?). auto.
Qed.

Lemma lifecycle_running w st :
  lifecycle w (Running st) ->
  isCloudMode st = truthy (getenv w "MEM0_API_KEY") /\
  (if isCloudMode st
   then localClient st = None /\
        (isReady st = true -> is_Some (cloudClient st)) /\
        (isReady st = false -> cloudClient st = None)
   else cloudClient st = None /\ is_Some (localClient st) /\ isReady st = true).
Proof.
  intros H. inversion H as [Hc | st0 Hc Hm Hs].
  - apply constructor_running in Hc as [Hk Hc]. split; [exact Hk|].
    destruct (isCloudMode st); [|exact Hc].
    destruct Hc as (? & ? & Hr). rewrite Hr. split; [assumption|]. split; [discriminate | auto].
  - apply constructor_running in Hc as [Hk Hc]. rewrite Hm in Hc.
    destruct Hc as (Hl & Hcc & Hr).
    unfold cloud_import_settled in Hs.
    destruct (import_mem0ai w); [|discriminate].
    destruct (new_MemoryClient w _).
    + injection Hs as <-. simpl. rewrite Hm. split; [congruence|].
      split; [exact Hl|]. split; [eauto | discriminate].
    + injection Hs as <-. rewrite Hm, Hr. split; [congruence|].
      split; [exact Hl|]. split; [discriminate | auto].
Qed.

(** A ready server has the client of its mode. *)
Lemma ready_has_client w st :
  lifecycle w (Running st) -> isReady st = true -> active_client st ≠ NoClient.
Proof.
  intros H Hr. apply lifecycle_running in H as [_ H]. unfold active_client.
  destruct (isCloudMode st).
  - destruct H as (_ & Hc & _). destruct (Hc Hr) as [c ->]. discriminate.
  - destruct H as (_ & [m ->] & _). discriminate.
Qed.

(** ** Rejected calls: validation and unknown tools *)

Lemma add_invalid w st args rt :
  truthy (prop args "content") = false \/ truthy (prop args "userId") = false ->
  rejected (handleAddMemory w st args rt) InvalidParams rt.
Proof.
  unfold handleAddMemory, rejected. intros [H | H].
  - rewrite H. cbn [negb]. eexists. reflexivity.
  - destruct (truthy (prop args "content")); rewrite ?H; cbn [negb]; eexists; reflexivity.
Qed.

Lemma search_invalid w st args rt :
  truthy (prop args "query") = false \/ truthy (prop args "userId") = false ->
  rejected (handleSearchMemory w st args rt) InvalidParams rt.
Proof.
  unfold handleSearchMemory, rejected. intros [H | H].
  - rewrite H. cbn [negb]. eexists. reflexivity.
  - destruct (truthy (prop args "query")); rewrite ?H; cbn [negb]; eexists; reflexivity.
Qed.

Lemma delete_invalid w st args rt :
  truthy (prop args "memoryId") = false \/ truthy (prop args "userId") = false ->
  rejected (handleDeleteMemory w st args rt) InvalidParams rt.
Proof.
  unfold handleDeleteMemory, rejected. intros [H | H].
  - rewrite H. cbn [negb]. eexists. reflexivity.
  - destruct (truthy (prop args "memoryId")); rewrite ?H; cbn [negb]; eexists; reflexivity.
Qed.

Lemma rejected_call_tool w st name a rt code :
  isReady st = true ->
  rejected (dispatch w st name a rt) code rt ->
  rejected (call_tool w st name a rt) code rt.
Proof.
  intros Hr [msg H]. exists msg. by apply call_tool_mcp.
Qed.

Lemma lacks_required_dispatch w st name a rt :
  lacks_required name (default ∅ a) ->
  rejected (dispatch w st name a rt) InvalidParams rt.
Proof.
  intros (k & Hk & Hf). unfold required in Hk.
  destruct (String.eqb_spec name "add_memory") as [-> | _].
  { rewrite dispatch_add. apply add_invalid.
    apply elem_of_cons in Hk as [-> | Hk]; [by left|].
    apply list_elem_of_singleton in Hk as ->. by right. }
  destruct (String.eqb_spec name "search_memory") as [-> | _].
  { rewrite dispatch_search. apply search_invalid.
    apply elem_of_cons in Hk as [-> | Hk]; [by left|].
    apply list_elem_of_singleton in Hk as ->. by right. }
  destruct (String.eqb_spec name "delete_memory") as [-> | _].
  { rewrite dispatch_delete. apply delete_invalid.
    apply elem_of_cons in Hk as [-> | Hk]; [by left|].
    apply list_elem_of_singleton in Hk as ->. by right. }
  by apply elem_of_nil in Hk.
Qed.

Lemma not_a_tool name :
  name ∉ tools ->
  name ≠ "add_memory" /\ name ≠ "search_memory" /\ name ≠ "delete_memory".
Proof. unfold tools. intros H. repeat split; intros ->; apply H; set_solver. Qed.

(** C7: a call to one of the three tools in which a required argument
    (content or userId for add_memory, query or userId for search_memory,
    memoryId or userId for delete_memory) is missing or empty makes the
    handler fail with InvalidParams before any backend operation, and a
    call naming any other tool makes the dispatch of lines 355-370 fail
    with MethodNotFound.  Both errors pass the [catch] of the request
    handler unchanged, so a ready server reports them to the caller as they
    are.  The run-time state is returned untouched in every case. *)
Theorem invalid_params_and_unknown_tool w st rt :
  (forall args,
     truthy (prop args "content") = false \/ truthy (prop args "userId") = false ->
     rejected (handleAddMemory w st args rt) InvalidParams rt) /\
  (forall args,
     truthy (prop args "query") = false \/ truthy (prop args "userId") = false ->
     rejected (handleSearchMemory w st args rt) InvalidParams rt) /\
  (forall args,
     truthy (prop args "memoryId") = false \/ truthy (prop args "userId") = false ->
     rejected (handleDeleteMemory w st args rt) InvalidParams rt) /\
  (forall name arguments,
     name ∉ tools ->
     dispatch w st name arguments rt =
       (Raise (McpError MethodNotFound ("Unknown tool: " ++ name)), rt)) /\
  (isReady st = true ->
   forall name arguments,
     (lacks_required name (default ∅ arguments) ->
      rejected (call_tool w st name arguments rt) InvalidParams rt) /\
     (name ∉ tools ->
      call_tool w st name arguments rt =
        (Raise (McpError MethodNotFound ("Unknown tool: " ++ name)), rt))).
Proof.
  split; [intros; by apply add_invalid|].
  split; [intros; by apply search_invalid|].
  split; [intros; by apply delete_invalid|].
  split.
  - intros name a (Ha & Hs & Hd)%not_a_tool. by apply dispatch_unknown.
  - intros Hr name a. split.
    + intros H. apply rejected_call_tool; [done|]. by apply lacks_required_dispatch.
    + intros (Ha & Hs & Hd)%not_a_tool. apply call_tool_mcp; [done|].
      by apply dispatch_unknown.
Qed.

(** search_memory without userId, and a tool that does not exist, on a
    ready cloud server. *)
Lemma invalid_params_and_unknown_tool_witness :
  let w := cloud_world all_ok in
  rejected (call_tool w (cloud_ready w) "search_memory"
              (Some (<["query" := JStr "q"]> ∅)) fresh) InvalidParams fresh /\
  call_tool w (cloud_ready w) "list_memories" None fresh =
    (Raise (McpError MethodNotFound "Unknown tool: list_memories"), fresh).
Proof.
  intros w.
  destruct (invalid_params_and_unknown_tool w (cloud_ready w) fresh)
    as (_ & _ & _ & _ & H).
  split.
  - apply (H eq_refl "search_memory" (Some (<["query" := JStr "q"]> ∅))).
    exists "userId". split; [|reflexivity].
    apply elem_of_cons. right. apply elem_of_cons. left. reflexivity.
  - apply (H eq_refl "list_memories" None).
    unfold tools. intros Hin.
    repeat (apply elem_of_cons in Hin as [Hin | Hin]; [discriminate Hin|]).
    by apply elem_of_nil in Hin.
Defined.

(** ** Calls before readiness *)

(** C6: whatever the tool name and the arguments, a call received while
    [isReady] is still false fails with InternalError and the message that
    the client is still initializing; the run-time state is returned as it
    was, so no backend request is made and nothing is left pending. *)
Theorem not_ready_rejects_every_call w st name arguments rt :
  isReady st = false ->
  call_tool w st name arguments rt =
    (Raise (McpError InternalError
              "Memory client is still initializing. Please try again in a moment."),
     rt).
Proof.
  intros Hr. unfold call_tool. rewrite Hr. reflexivity.
Qed.

Lemma not_ready_rejects_every_call_witness :
  call_tool (cloud_world all_ok) cloud_pending "add_memory"
    (Some (<["content" := JStr "hello"]> (<["userId" := JStr "u1"]> ∅))) fresh =
    (Raise (McpError InternalError
              "Memory client is still initializing. Please try again in a moment."),
     fresh).
Proof.
  apply (not_ready_rejects_every_call (cloud_world all_ok) cloud_pending).
  reflexivity.
Defined.

(** ** Mode selection *)

(** The keys the constructor reads are not among those the module prelude
    overwrites: they are read as the process was given them. *)
Lemma getenv_api_key w k :
  k = "MEM0_API_KEY" \/ k = "OPENAI_API_KEY" ->
  getenv w k = match process_env w !! k with Some s => JStr s | None => JUndefined end.
Proof.
  intros [-> | ->]; unfold getenv, prelude_env; by rewrite !lookup_insert_ne.
Qed.

(** A key is set, for the constructor, when it is present with a non-empty
    value. *)
Lemma api_key_set w k :
  k = "MEM0_API_KEY" \/ k = "OPENAI_API_KEY" ->
  truthy (getenv w k) = true <-> exists s, process_env w !! k = Some s /\ s ≠ "".
Proof.
  intros Hk. rewrite (getenv_api_key w k Hk).
  destruct (process_env w !! k) as [s|]; simpl.
  - destruct s; simpl; split; try discriminate.
    + intros (s & [= <-] & Hs). congruence.
    + intros _. eexists. split; [reflexivity | discriminate].
    + auto.
  - split; [discriminate | intros (s & [=] & _)].
Qed.

(** An empty MEM0_API_KEY is not a key: the constructor goes on to
    OPENAI_API_KEY. *)
Example empty_cloud_key_selects_local :
  constructor empty_cloud_key_world = local_branch empty_cloud_key_world /\
  isCloudMode (state_of (constructor empty_cloud_key_world)) = false.
Proof. split; reflexivity. Qed.

(** What the Local branch does with the configuration it has built. *)
Lemma local_branch_outcome w :
  match local_config w with
  | None => local_branch w = Exited 1
  | Some config =>
      match new_Memory w config with
      | Normal has_delete =>
          local_branch w =
            Running {| isCloudMode := false;
                       localClient := Some {| config := config;
                                              vectorstore_delete_is_function := has_delete |};
                       cloudClient := None; isReady := true |}
      | Abrupt _ => local_branch w = Exited 1
      end
  end.
Proof.
  unfold local_branch. destruct (local_config w) as [config|]; [|done].
  by destruct (new_Memory w config).
Qed.

(** C2: mode selection is deterministic.  With MEM0_API_KEY set the
    constructor selects Cloud mode whatever OPENAI_API_KEY is: it leaves
    the server in Cloud mode waiting for the import, the server is ready
    with its cloud client once the import has resolved and the client is
    built, and every state of the server is in Cloud mode.  With only
    OPENAI_API_KEY set it takes the Local branch: when [new Memory] returns,
    the server runs in Local mode, ready, with that client and no cloud
    client; when the configuration is refused or [new Memory] throws, the
    process exits with status 1; and every state of the server is in Local
    mode.  With neither set the only state the process has is the exit with
    status 1, so no tool can be called.  No state holds both clients, and
    the mode flag of every state is the one the keys decide. *)
Theorem mode_selection w :
  (truthy (getenv w "MEM0_API_KEY") = true ->
   constructor w = Running cloud_pending /\
   (import_mem0ai w = Normal tt ->
    new_MemoryClient w (cloud_clientOptions w) = Normal tt ->
    startup w = Running (cloud_ready w)) /\
   forall st, lifecycle w (Running st) ->
              isCloudMode st = true /\ localClient st = None) /\
  (truthy (getenv w "MEM0_API_KEY") = false ->
   truthy (getenv w "OPENAI_API_KEY") = true ->
   constructor w = local_branch w /\
   (forall config has_delete,
      local_config w = Some config ->
      new_Memory w config = Normal has_delete ->
      startup w =
        Running {| isCloudMode := false;
                   localClient := Some {| config := config;
                                          vectorstore_delete_is_function := has_delete |};
                   cloudClient := None; isReady := true |}) /\
   (local_config w = None \/
    (exists config e, local_config w = Some config /\ new_Memory w config = Abrupt e) ->
    startup w = Exited 1) /\
   forall st, lifecycle w (Running st) ->
              isCloudMode st = false /\ cloudClient st = None /\
              is_Some (localClient st)) /\
  (truthy (getenv w "MEM0_API_KEY") = false ->
   truthy (getenv w "OPENAI_API_KEY") = false ->
   forall p, lifecycle w p -> p = Exited 1) /\
  (forall st, lifecycle w (Running st) ->
              isCloudMode st = truthy (getenv w "MEM0_API_KEY") /\
              ~ (is_Some (cloudClient st) /\ is_Some (localClient st))).
Proof.
  split; [|split; [|split]].
  - intros Hk.
    assert (Hc : constructor w = Running cloud_pending)
      by (unfold constructor; by rewrite Hk).
    split; [exact Hc|]. split.
    + intros Hi Hn. unfold startup. rewrite Hc. simpl.
      unfold cloud_import_settled. by rewrite Hi, Hn.
    + intros st [Hm H]%lifecycle_running. rewrite Hm, Hk in *. by destruct H.
  - intros Hk Ho.
    assert (Hc : constructor w = local_branch w)
      by (unfold constructor; by rewrite Hk, Ho).
    pose proof (local_branch_outcome w) as Hb.
    split; [exact Hc|]. split; [|split].
    + intros config has_delete Hcfg Hn. rewrite Hcfg, Hn in Hb.
      unfold startup. by rewrite Hc, Hb.
    + intros [Hcfg | (config & e & Hcfg & Hn)]; unfold startup; rewrite Hc.
      * rewrite Hcfg in Hb. by rewrite Hb.
      * rewrite Hcfg, Hn in Hb. by rewrite Hb.
    + intros st [Hm H]%lifecycle_running. rewrite Hm, Hk in *.
      destruct H as (? & ? & ?). auto.
  - intros Hk Ho p H.
    assert (Hc : constructor w = Exited 1) by (unfold constructor; by rewrite Hk, Ho).
    inversion H as [Hp | st Hst Hm Hs]; [done | congruence].
  - intros st [Hm H]%lifecycle_running. split; [exact Hm|].
    intros [[c Hc] [m Hl]]. destruct (isCloudMode st).
    + destruct H as (H & _). congruence.
    + destruct H as (H & _). congruence.
Qed.

(** Both keys: cloud.  Only the local key: a running server in Local mode.
    No key: exit 1. *)
Lemma mode_selection_witness :
  constructor (cloud_world all_ok) = Running cloud_pending /\
  (exists config,
     startup (local_world true all_ok) =
       Running {| isCloudMode := false;
                  localClient := Some {| config := config;
                                         vectorstore_delete_is_function := true |};
                  cloudClient := None; isReady := true |}) /\
  constructor no_key_world = Exited 1.
Proof.
  split; [|split].
  - apply (mode_selection (cloud_world all_ok)). reflexivity.
  - destruct (mode_selection (local_world true all_ok)) as (_ & Hl & _).
    destruct (Hl eq_refl eq_refl) as (_ & Hrun & _).
    eexists. apply (Hrun _ true); reflexivity.
  - apply (mode_selection no_key_world); [reflexivity | reflexivity | constructor].
Defined.

(** ** add_memory *)

(** Every string converts, and so does every other primitive. *)
Lemma conversion_throws_string s : conversion_throws (JStr s) = false.
Proof. reflexivity. Qed.

(** A rejected write is reported on the diagnostic channel when its promise
    settles, and nowhere else. *)
Lemma settle_reports_rejection tr label err :
  settle [0%nat] {| trace := tr; pending := [(label, Abrupt err)] |} =
    {| trace := tr ++ [Diag label (JsThrow err)]; pending := [] |}.
Proof. reflexivity. Qed.



(** C1: on a ready server, an add_memory call with a non-empty (truthy)
    content and userId, the userId one that the template literal of line
    396 can print, as every string is, returns exactly
    [{content: [{type: "text", text: "Memory addition queued successfully"}]}],
    in every world, that is however the backend will answer the write: the
    write is started and its promise is left pending, never awaited. *)
Theorem add_memory_queued w st args rt :
  lifecycle w (Running st) ->
  isReady st = true ->
  truthy (prop args "content") = true ->
  truthy (prop args "userId") = true ->
  conversion_throws (prop args "userId") = false ->
  exists c label,
    call_tool w st "add_memory" (Some args) rt =
      (Ret {| content := [ {| type := "text";
                              text := JStr "Memory addition queued successfully" |} ] |},
       {| trace := trace rt ++ [Backend c];
          pending := pending rt ++ [(label, respond w (trace rt) c)] |}).
Proof.
  intros Hl Hr Hc Hu Hp.
  pose proof (ready_has_client w st Hl Hr) as Ha.
  destruct (active_client st) as [c | m |] eqn:Hact; [| |done];
    eexists _, _; (apply call_tool_ret; [done|]);
    rewrite dispatch_add; change (default ∅ (Some args)) with args;
    unfold handleAddMemory, template; rewrite Hc, Hu, Hp, Hact; reflexivity.
Qed.

(** The write fails in the background; the caller still has the success
    response. *)
Lemma add_memory_queued_witness :
  let w := cloud_world all_fail in
  exists c label,
    call_tool w (cloud_ready w) "add_memory" (Some hello_u1) fresh =
      (Ret (text_response (JStr "Memory addition queued successfully")),
       {| trace := [Backend c]; pending := [(label, Abrupt (Error_ "backend down"))] |}).
Proof.
  intros w.
  apply (add_memory_queued w (cloud_ready w) hello_u1 fresh); try reflexivity.
  exact (lc_import_settled w cloud_pending eq_refl eq_refl).
Defined.

(** ** Failing initialisation *)

Lemma local_init_failure_exits w :
  truthy (getenv w "MEM0_API_KEY") = false ->
  truthy (getenv w "OPENAI_API_KEY") = true ->
  (forall config, exists e, new_Memory w config = Abrupt e) ->
  startup w = Exited 1.
Proof.
  intros Hk Ho Hn. unfold startup, constructor. rewrite Hk, Ho. unfold local_branch.
  destruct (local_config w) as [config|]; [|done].
  by destruct (Hn config) as [e ->].
Qed.

Lemma import_failure_exits w e :
  truthy (getenv w "MEM0_API_KEY") = true ->
  import_mem0ai w = Abrupt e ->
  startup w = Exited 1.
Proof.
  intros Hk Hi. unfold startup, constructor. rewrite Hk. simpl.
  unfold cloud_import_settled. by rewrite Hi.
Qed.

(** The cloud client's constructor throwing is caught by the inner [try]
    of lines 138-166, which only logs: the process keeps running, not
    ready and with no client. *)
Lemma cloud_client_failure_swallowed w e :
  truthy (getenv w "MEM0_API_KEY") = true ->
  import_mem0ai w = Normal tt ->
  new_MemoryClient w (cloud_clientOptions w) = Abrupt e ->
  startup w = Running cloud_pending.
Proof.
  intros Hk Hi Hn. unfold startup, constructor. rewrite Hk. simpl.
  unfold cloud_import_settled. by rewrite Hi, Hn.
Qed.

(** C3, at the failing input: with MEM0_API_KEY set to blanks the cloud
    branch is selected, the client's constructor throws, and the process
    is left running with no client and the readiness flag unset, where the
    claim has it exit with a non-zero status. *)
Theorem cloud_client_failure_keeps_running :
  truthy (getenv blank_key_world "MEM0_API_KEY") = true /\
  new_MemoryClient blank_key_world (cloud_clientOptions blank_key_world) =
    Abrupt (Error_ "Mem0 API key cannot be empty") /\
  startup blank_key_world = Running cloud_pending /\
  active_client cloud_pending = NoClient /\
  isReady cloud_pending = false.
Proof.
  split; [reflexivity|]. split; [reflexivity|].
  split; [|split; reflexivity].
  by apply (cloud_client_failure_swallowed _ (Error_ "Mem0 API key cannot be empty")).
Qed.

(** ** Running the handlers *)

Lemma backend_calls_app tr1 tr2 :
  backend_calls (tr1 ++ tr2) = backend_calls tr1 ++ backend_calls tr2.
Proof. apply omap_app. Qed.

Ltac run :=
  cbv beta iota zeta delta
    [try_catch bind await ret throw console_error lift record
     search_failed tool_failed no_client fire_and_forget template];
  cbn [trace pending fst snd].

(** The [catch] of the request handler makes no backend request. *)
Lemma call_tool_requests w st name a rt :
  isReady st = true ->
  backend_calls (trace (snd (call_tool w st name a rt))) =
  backend_calls (trace (snd (dispatch w st name a rt))).
Proof.
  intros Hr. unfold call_tool. rewrite Hr. cbn [negb]. unfold try_catch.
  destruct (dispatch w st name a rt) as [[r | [code msg | e]] rt']; [done | done |].
  run. destruct (get_message w e); run; rewrite backend_calls_app; simpl; by rewrite app_nil_r.
Qed.

Lemma get_message_abrupt w e x :
  get_message w e = Abrupt x -> exists o, x = JObj o.
Proof.
  destruct e; simpl; intros [= <-]; by eexists.
Qed.

Lemma get_message_object w o : get_message w (JObj o) = Normal (prop o "message").
Proof. reflexivity. Qed.

(** A handler throws an [McpError] or, when a string conversion fails or
    reading [error.message] fails in one of its [catch] blocks, a TypeError
    object. *)
Lemma dispatch_throws_objects w st name a rt e :
  fst (dispatch w st name a rt) = Raise (JsThrow e) -> exists o, e = JObj o.
Proof.
  unfold dispatch, handleAddMemory, handleSearchMemory, handleDeleteMemory, exn_message.
  run. intros H.
  repeat case_match; run; simplify_eq; simpl in *; simplify_eq;
    eauto using get_message_abrupt.
Qed.

(** What the caller of a tool gets is an answer or an [McpError]. *)
Lemma call_tool_result w st name a rt :
  (exists r, fst (call_tool w st name a rt) = Ret r) \/
  (exists code msg, fst (call_tool w st name a rt) = Raise (McpError code msg)).
Proof.
  unfold call_tool. destruct (isReady st); cbn [negb]; [|right; by eexists _, _].
  unfold try_catch.
  destruct (dispatch w st name a rt) as [[r | [code msg | e]] rt'] eqn:Hd.
  - left. by eexists.
  - right. by eexists _, _.
  - right. destruct (dispatch_throws_objects w st name a rt e) as [o ->]; [by rewrite Hd|].
    run. rewrite get_message_object. run. by eexists _, _.
Qed.

(** ** search_memory *)

Lemma set_threshold_lookup threshold (options : obj) :
  set_threshold threshold options !! "threshold" =
    Some (if is_nullish threshold then num_0_3 else threshold).
Proof.
  unfold set_threshold. destruct (is_nullish threshold); apply lookup_insert_eq.
Qed.

Lemma search_requests w st args rt :
  truthy (prop args "query") = true ->
  truthy (prop args "userId") = true ->
  backend_calls (trace (snd (handleSearchMemory w st args rt))) =
  backend_calls (trace rt) ++
    match active_client st with
    | ActiveCloud _ => [CloudSearch (prop args "query") (cloud_search_options w args)]
    | ActiveLocal _ => [LocalSearch (prop args "query") (local_search_options args)]
    | NoClient => []
    end.
Proof.
  intros Hq Hu. unfold handleSearchMemory. rewrite Hq, Hu. cbn [negb].
  destruct (active_client st) as [c | m |]; run.
  - destruct (respond w _ _) as [v | e]; run; [by rewrite backend_calls_app|].
    unfold exn_message.
    destruct (get_message w e); run; rewrite !backend_calls_app; simpl; by rewrite app_nil_r.
  - destruct (respond w _ _) as [v | e]; run; [by rewrite backend_calls_app|].
    unfold exn_message.
    destruct (get_message w e); run; rewrite !backend_calls_app; simpl; by rewrite app_nil_r.
  - by rewrite app_nil_r.
Qed.

(** C4: the options object a search passes to the backend, in Cloud mode
    ([cloudClient.search]) and in Local mode ([localClient.search]) alike,
    has [threshold] equal to 0.3 when the argument is omitted ([undefined]
    or [null]) and equal to the supplied value otherwise. *)
Theorem search_threshold w st args rt :
  isReady st = true ->
  truthy (prop args "query") = true ->
  truthy (prop args "userId") = true ->
  exists options,
    backend_calls (trace (snd (call_tool w st "search_memory" (Some args) rt))) =
      backend_calls (trace rt) ++
        match active_client st with
        | ActiveCloud _ => [CloudSearch (prop args "query") options]
        | ActiveLocal _ => [LocalSearch (prop args "query") options]
        | NoClient => []
        end /\
    (prop args "threshold" = JUndefined \/ prop args "threshold" = JNull ->
     options !! "threshold" = Some (JNum (Finite (3 # 10)))) /\
    (prop args "threshold" ≠ JUndefined -> prop args "threshold" ≠ JNull ->
     options !! "threshold" = Some (prop args "threshold")).
Proof.
  intros Hr Hq Hu.
  exists (match active_client st with
          | ActiveCloud _ => cloud_search_options w args
          | _ => local_search_options args
          end).
  split.
  - rewrite call_tool_requests, dispatch_search by done.
    change (default ∅ (Some args)) with args.
    rewrite search_requests by done. by destruct (active_client st).
  - assert (Hl : (match active_client st with
                  | ActiveCloud _ => cloud_search_options w args
                  | _ => local_search_options args
                  end) !! "threshold" =
                 Some (if is_nullish (prop args "threshold") then num_0_3
                       else prop args "threshold")).
    { destruct (active_client st); apply set_threshold_lookup. }
    rewrite Hl. split.
    + by intros [-> | ->].
    + intros H1 H2. by destruct (prop args "threshold").
Qed.

(** A cloud search with no threshold argument. *)
Lemma search_threshold_witness :
  let w := cloud_world all_ok in
  exists options,
    backend_calls (trace (snd (call_tool w (cloud_ready w) "search_memory" (Some q_u1) fresh))) =
      [CloudSearch (JStr "q") options] /\
    options !! "threshold" = Some (JNum (Finite (3 # 10))).
Proof.
  intros w.
  destruct (search_threshold w (cloud_ready w) q_u1 fresh) as (o & H1 & H2 & _);
    [reflexivity | reflexivity | reflexivity |].
  exists o. split; [exact H1 | apply H2; left; reflexivity].
Defined.

(** ** delete_memory *)

Lemma delete_cloud_run w st c args rt :
  active_client st = ActiveCloud c ->
  truthy (prop args "memoryId") = true ->
  truthy (prop args "userId") = true ->
  conversion_throws (prop args "memoryId") = false ->
  conversion_throws (prop args "userId") = false ->
  let memoryId := prop args "memoryId" in
  let primary := CloudDeleteMemory memoryId in
  let fallback := fallback_fetch w memoryId (cloud_delete_options w args) in
  let rt1 := record (Backend primary) rt in
  let rt2 := record (Backend fallback) rt1 in
  handleDeleteMemory w st args rt =
    match respond w (trace rt) primary with
    | Normal _ => (Ret (deleted w memoryId), rt1)
    | Abrupt _ =>
        match respond w (trace rt1) fallback with
        | Normal _ => (Ret (deleted w memoryId), rt2)
        | Abrupt e =>
            let rt3 := record (Diag "Error deleting memory using cloud API:" (JsThrow e)) rt2 in
            match get_message w e with
            | Normal message =>
                (Raise (McpError InternalError
                          ("Error deleting memory: " ++ ToString w message)%string), rt3)
            | Abrupt x => (Raise (JsThrow x), rt3)
            end
        end
    end.
Proof.
  intros Ha Hm Hu Hpm Hpu. unfold handleDeleteMemory, template.
  rewrite Hm, Hu, Hpm, Hpu, Ha. cbn [negb]. run.
  destruct (respond w (trace rt) _); run; [done|].
  destruct (respond w _ _); run; [done|].
  unfold exn_message. by destruct (get_message w _).
Qed.

Lemma delete_local_run w st m args rt :
  active_client st = ActiveLocal m ->
  truthy (prop args "memoryId") = true ->
  truthy (prop args "userId") = true ->
  conversion_throws (prop args "memoryId") = false ->
  conversion_throws (prop args "userId") = false ->
  let memoryId := prop args "memoryId" in
  let primary := LocalDeleteMemory memoryId in
  let fallback := VectorStoreDelete (<["ids" := JArr [memoryId]]> ∅) in
  let rt1 := record (Backend primary) rt in
  let rt2 := record (Backend fallback) rt1 in
  let failed (e : jsval) (rt' : Runtime) : res ToolResponse * Runtime :=
    let rt3 := record (Diag "Error deleting memory using local storage:" (JsThrow e)) rt' in
    match get_message w e with
    | Normal message =>
        (Raise (McpError InternalError
                  ("Error deleting memory: " ++
                   ToString w (js_or message
                                 (JStr "Local client does not support memory deletion")))%string),
         rt3)
    | Abrupt x => (Raise (JsThrow x), rt3)
    end in
  handleDeleteMemory w st args rt =
    match respond w (trace rt) primary with
    | Normal _ => (Ret (deleted w memoryId), rt1)
    | Abrupt _ =>
        if vectorstore_delete_is_function m then
          match respond w (trace rt1) fallback with
          | Normal _ => (Ret (deleted w memoryId), rt2)
          | Abrupt e => failed e rt2
          end
        else failed (Error_ "Local client does not support memory deletion") rt1
    end.
Proof.
  intros Ha Hm Hu Hpm Hpu. unfold handleDeleteMemory, template.
  rewrite Hm, Hu, Hpm, Hpu, Ha. cbn [negb]. run.
  destruct (respond w (trace rt) _); run; [done|].
  destruct (vectorstore_delete_is_function m); run.
  - destruct (respond w _ _); run; [done|].
    unfold exn_message. by destruct (get_message w _).
  - reflexivity.
Qed.

(** C9: in Cloud mode, for a delete whose memoryId and userId are
    non-empty and can be printed by the template literal of line 547 (as
    every string can), when [cloudClient.deleteMemory] throws and the
    fallback [fetch] resolves, the handler answers
    "Memory {id} deleted successfully" whatever the response [v] is: its
    status is never looked at, so an error status gives the same answer. *)
Theorem cloud_delete_ignores_http_status w st c args rt e v :
  isReady st = true ->
  active_client st = ActiveCloud c ->
  truthy (prop args "memoryId") = true ->
  truthy (prop args "userId") = true ->
  conversion_throws (prop args "memoryId") = false ->
  conversion_throws (prop args "userId") = false ->
  respond w (trace rt) (CloudDeleteMemory (prop args "memoryId")) = Abrupt e ->
  respond w (trace rt ++ [Backend (CloudDeleteMemory (prop args "memoryId"))])
          (fallback_fetch w (prop args "memoryId") (cloud_delete_options w args)) = Normal v ->
  fst (call_tool w st "delete_memory" (Some args) rt) =
    Ret {| content :=
             [ {| type := "text";
                  text := JStr ("Memory " ++ ToString w (prop args "memoryId")
                                ++ " deleted successfully") |} ] |}.
Proof.
  intros Hr Ha Hm Hu Hpm Hpu Hp Hf.
  erewrite call_tool_ret; [reflexivity | done |].
  rewrite dispatch_delete. change (default ∅ (Some args)) with args.
  rewrite (delete_cloud_run w st c) by done. cbn zeta.
  rewrite Hp. cbn [record trace]. rewrite Hf. reflexivity.
Qed.

(** The fallback request is answered with status 500 and the caller is
    told the memory was deleted. *)
Lemma cloud_delete_ignores_http_status_witness :
  let w := cloud_world primary_throws_fetch_500 in
  fst (call_tool w (cloud_ready w) "delete_memory" (Some m1_u1) fresh) =
    Ret (text_response (JStr "Memory m1 deleted successfully")).
Proof.
  intros w.
  apply (cloud_delete_ignores_http_status w (cloud_ready w)
           {| clientOptions := cloud_clientOptions w |} m1_u1 fresh
           (Error_ "this.cloudClient.deleteMemory is not a function") http_500);
    reflexivity.
Defined.

Lemma fallback_attempts_calls tr tr' cs :
  backend_calls tr' = backend_calls tr ++ cs ->
  fallback_attempts tr' = fallback_attempts tr + length (List.filter is_fallback cs).
Proof.
  intros H. unfold fallback_attempts. by rewrite H, List.filter_app, length_app.
Qed.

(** A TypeError thrown by a handler's [catch] is wrapped by the [catch] of
    the request handler. *)
Lemma call_tool_wraps w st name a rt rt' e (f : jsval -> string) :
  isReady st = true ->
  dispatch w st name a rt =
    match get_message w e with
    | Normal message => (Raise (McpError InternalError (f message)), rt')
    | Abrupt x => (Raise (JsThrow x), rt')
    end ->
  exists message, fst (call_tool w st name a rt) = Raise (McpError InternalError message).
Proof.
  intros Hr Hd. destruct (get_message w e) as [m | x] eqn:He.
  - eexists. by erewrite call_tool_mcp.
  - apply get_message_abrupt in He as [o ->].
    unfold call_tool. rewrite Hr. cbn [negb]. unfold try_catch. rewrite Hd.
    run. rewrite get_message_object. run. by eexists.
Qed.

Lemma delete_requests_diag tr c l x :
  backend_calls ((tr ++ [Backend c]) ++ [Diag l x]) = backend_calls tr ++ [c].
Proof. rewrite !backend_calls_app. simpl. by rewrite app_nil_r. Qed.

(** C5, as the code has it, for a delete whose memoryId and userId are
    non-empty and can be printed by the template literal of line 547 (as
    every string can): when the primary delete throws, the cloud branch
    makes the raw network delete exactly once, and the local branch makes
    the vector-store delete exactly once if the client has a [_vectorstore]
    whose [delete] is a function, and not at all otherwise.  When the
    fallback throws too, or is not there, the caller gets an InternalError
    with a message and no success response. *)
Theorem delete_fallback w st args rt e :
  isReady st = true ->
  truthy (prop args "memoryId") = true ->
  truthy (prop args "userId") = true ->
  conversion_throws (prop args "memoryId") = false ->
  conversion_throws (prop args "userId") = false ->
  let memoryId := prop args "memoryId" in
  let r := call_tool w st "delete_memory" (Some args) rt in
  match active_client st with
  | ActiveCloud _ =>
      let primary := CloudDeleteMemory memoryId in
      let fallback := fallback_fetch w memoryId (cloud_delete_options w args) in
      respond w (trace rt) primary = Abrupt e ->
      backend_calls (trace (snd r)) = backend_calls (trace rt) ++ [primary; fallback] /\
      fallback_attempts (trace (snd r)) = fallback_attempts (trace rt) + 1 /\
      (forall e', respond w (trace rt ++ [Backend primary]) fallback = Abrupt e' ->
                  exists message, fst r = Raise (McpError InternalError message))
  | ActiveLocal localClient =>
      let primary := LocalDeleteMemory memoryId in
      let fallback := VectorStoreDelete (<["ids" := JArr [memoryId]]> ∅) in
      respond w (trace rt) primary = Abrupt e ->
      if vectorstore_delete_is_function localClient then
        backend_calls (trace (snd r)) = backend_calls (trace rt) ++ [primary; fallback] /\
        fallback_attempts (trace (snd r)) = fallback_attempts (trace rt) + 1 /\
        (forall e', respond w (trace rt ++ [Backend primary]) fallback = Abrupt e' ->
                    exists message, fst r = Raise (McpError InternalError message))
      else
        backend_calls (trace (snd r)) = backend_calls (trace rt) ++ [primary] /\
        fallback_attempts (trace (snd r)) = fallback_attempts (trace rt) /\
        fst r = Raise (McpError InternalError
                         "Error deleting memory: Local client does not support memory deletion")
  | NoClient =>
      r = (Raise (McpError InternalError "No memory client is available"), rt)
  end.
Proof.
  intros Hr Hm Hu Hpm Hpu memoryId r.
  assert (Hd : dispatch w st "delete_memory" (Some args) rt = handleDeleteMemory w st args rt)
    by reflexivity.
  destruct (active_client st) as [c | m |] eqn:Ha.
  - intros primary fallback Hp.
    pose proof (delete_cloud_run w st c args rt Ha Hm Hu Hpm Hpu) as Hrun. cbn zeta in Hrun.
    fold memoryId primary fallback in Hrun. rewrite Hp in Hrun. rewrite <- Hd in Hrun.
    assert (Hc : backend_calls (trace (snd r)) =
                 backend_calls (trace rt) ++ [primary; fallback]).
    { unfold r. rewrite call_tool_requests, Hrun by done. cbn [record trace].
      destruct (respond w _ fallback) as [v | e'].
      - cbn [snd record trace]. rewrite !backend_calls_app. simpl. by rewrite <- app_assoc.
      - destruct (get_message w e'); cbn [snd record trace];
          rewrite delete_requests_diag, backend_calls_app; simpl; by rewrite <- app_assoc. }
    split; [exact Hc|]. split; [by rewrite (fallback_attempts_calls _ _ _ Hc)|].
    intros e' Hf. cbn [record trace] in Hrun. rewrite Hf in Hrun.
    by eapply (call_tool_wraps _ _ _ _ _ _ e'
                 (fun message => ("Error deleting memory: " ++ ToString w message)%string)).
  - intros primary fallback Hp.
    pose proof (delete_local_run w st m args rt Ha Hm Hu Hpm Hpu) as Hrun. cbn zeta in Hrun.
    fold memoryId primary fallback in Hrun. rewrite Hp in Hrun. rewrite <- Hd in Hrun.
    destruct (vectorstore_delete_is_function m).
    + assert (Hc : backend_calls (trace (snd r)) =
                   backend_calls (trace rt) ++ [primary; fallback]).
      { unfold r. rewrite call_tool_requests, Hrun by done. cbn [record trace].
        destruct (respond w _ fallback) as [v | e'].
        - cbn [snd record trace]. rewrite !backend_calls_app. simpl. by rewrite <- app_assoc.
        - destruct (get_message w e'); cbn [snd record trace];
            rewrite delete_requests_diag, backend_calls_app; simpl; by rewrite <- app_assoc. }
      split; [exact Hc|]. split; [by rewrite (fallback_attempts_calls _ _ _ Hc)|].
      intros e' Hf. cbn [record trace] in Hrun. rewrite Hf in Hrun.
      by eapply (call_tool_wraps _ _ _ _ _ _ e'
                   (fun message =>
                      ("Error deleting memory: " ++
                       ToString w (js_or message
                          (JStr "Local client does not support memory deletion")))%string)).
    + assert (Hc : backend_calls (trace (snd r)) = backend_calls (trace rt) ++ [primary]).
      { unfold r. rewrite call_tool_requests, Hrun by done.
        cbn [get_message Error_ snd record trace]. apply delete_requests_diag. }
      split; [exact Hc|].
      split; [rewrite (fallback_attempts_calls _ _ _ Hc); simpl; lia|].
      unfold r. erewrite call_tool_mcp; [reflexivity | done | exact Hrun].
  - unfold r. apply call_tool_mcp; [done|]. rewrite Hd.
    unfold handleDeleteMemory, template. by rewrite Hm, Hu, Hpm, Hpu, Ha.
Qed.

(** Both the cloud client's [deleteMemory] and the raw network delete
    fail. *)
Lemma delete_fallback_witness :
  let w := cloud_world all_fail in
  let r := call_tool w (cloud_ready w) "delete_memory" (Some m1_u1) fresh in
  fallback_attempts (trace (snd r)) = 1 /\
  exists message, fst r = Raise (McpError InternalError message).
Proof.
  intros w r.
  destruct (delete_fallback w (cloud_ready w) m1_u1 fresh (Error_ "backend down")
              eq_refl eq_refl eq_refl eq_refl eq_refl eq_refl) as (_ & H2 & H3).
  split; [exact H2 | apply (H3 (Error_ "backend down")); reflexivity].
Defined.

(** C5 as stated fails in Local mode: on a client without a
    [_vectorstore.delete] function the primary delete throws and no
    fallback request is made at all. *)
Lemma delete_local_without_vectorstore :
  let w := local_world false all_fail in
  let st := local_ready w in
  let r := call_tool w st "delete_memory" (Some m1_u1) fresh in
  startup w = Running st /\
  isReady st = true /\
  respond w [] (LocalDeleteMemory (JStr "m1")) = Abrupt (Error_ "backend down") /\
  backend_calls (trace (snd r)) = [LocalDeleteMemory (JStr "m1")] /\
  fallback_attempts (trace (snd r)) = 0 /\
  fst r = Raise (McpError InternalError
                   "Error deleting memory: Local client does not support memory deletion").
Proof.
  vm_compute. repeat split.
Qed.

(** ** Scoping identifiers of cloud requests *)

Lemma set_if_lookup_ne k k' v (o : obj) : k ≠ k' -> set_if k v o !! k' = o !! k'.
Proof. intros H. unfold set_if. destruct (truthy v); [by rewrite lookup_insert_ne | done]. Qed.

Lemma set_if_lookup_fresh k v (o : obj) :
  o !! k = None -> set_if k v o !! k = scope_value v.
Proof.
  intros H. unfold set_if, scope_value. destruct (truthy v); [apply lookup_insert_eq | done].
Qed.









Lemma add_requests w st args rt :
  truthy (prop args "content") = true ->
  truthy (prop args "userId") = true ->
  conversion_throws (prop args "userId") = false ->
  backend_calls (trace (snd (handleAddMemory w st args rt))) =
  backend_calls (trace rt) ++
    match active_client st with
    | ActiveCloud _ => [CloudAdd (add_messages args) (cloud_add_options w args)]
    | ActiveLocal _ => [LocalAdd (add_messages args) (local_add_options args)]
    | NoClient => []
    end.
Proof.
  intros Hc Hu Hp. unfold handleAddMemory, template. rewrite Hc, Hu, Hp. cbn [negb].
  destruct (active_client st); run; by rewrite ?backend_calls_app, ?app_nil_r.
Qed.





(** ** The agent identifier in Local mode *)

Lemma prop_agree (args args' : obj) k :
  (forall k, k ≠ "agentId" -> args !! k = args' !! k) ->
  k ≠ "agentId" -> prop args k = prop args' k.
Proof. intros H Hk. unfold prop. by rewrite (H k Hk). Qed.

Lemma local_add_agree w st m (args args' : obj) :
  active_client st = ActiveLocal m ->
  (forall k, k ≠ "agentId" -> args !! k = args' !! k) ->
  handleAddMemory w st args = handleAddMemory w st args'.
Proof.
  intros Ha H. unfold handleAddMemory, add_messages, local_add_options.
  rewrite Ha. cbv beta iota.
  by rewrite !(prop_agree args args' "content"), !(prop_agree args args' "userId"),
    !(prop_agree args args' "sessionId"), !(prop_agree args args' "metadata").
Qed.

Lemma local_search_agree w st m (args args' : obj) :
  active_client st = ActiveLocal m ->
  (forall k, k ≠ "agentId" -> args !! k = args' !! k) ->
  handleSearchMemory w st args = handleSearchMemory w st args'.
Proof.
  intros Ha H. unfold handleSearchMemory, local_search_options.
  rewrite Ha. cbv beta iota.
  by rewrite !(prop_agree args args' "query"), !(prop_agree args args' "userId"),
    !(prop_agree args args' "sessionId"), !(prop_agree args args' "filters"),
    !(prop_agree args args' "threshold").
Qed.

(** C10: in Local mode the options of a write are exactly
    [{userId, sessionId, metadata}] and those of a search exactly
    [{userId, sessionId, filters, threshold}]; [agentId] is in neither, and
    two calls that differ only in [agentId] run identically: same answer,
    same requests.  (The write goes out once line 396 has printed the
    userId, which it can for every string.) *)
Theorem local_drops_agentId w st m args rt :
  isReady st = true ->
  active_client st = ActiveLocal m ->
  (truthy (prop args "content") = true -> truthy (prop args "userId") = true ->
   conversion_throws (prop args "userId") = false ->
   backend_calls (trace (snd (call_tool w st "add_memory" (Some args) rt))) =
     backend_calls (trace rt) ++
       [LocalAdd (add_messages args) (local_add_options args)]) /\
  dom (local_add_options args) = ({["userId"; "sessionId"; "metadata"]} : gset string) /\
  (truthy (prop args "query") = true -> truthy (prop args "userId") = true ->
   backend_calls (trace (snd (call_tool w st "search_memory" (Some args) rt))) =
     backend_calls (trace rt) ++
       [LocalSearch (prop args "query") (local_search_options args)]) /\
  dom (local_search_options args) =
    ({["userId"; "sessionId"; "filters"; "threshold"]} : gset string) /\
  (forall args' : obj,
     (forall k, k ≠ "agentId" -> args !! k = args' !! k) ->
     call_tool w st "add_memory" (Some args) rt =
       call_tool w st "add_memory" (Some args') rt /\
     call_tool w st "search_memory" (Some args) rt =
       call_tool w st "search_memory" (Some args') rt).
Proof.
  intros Hr Ha.
  split; [|split; [|split; [|split]]].
  - intros Hc Hu Hp. rewrite call_tool_requests, dispatch_add by done.
    change (default ∅ (Some args)) with args. rewrite add_requests by done.
    by rewrite Ha.
  - unfold local_add_options. rewrite !dom_insert_L, dom_empty_L. set_solver.
  - intros Hq Hu. rewrite call_tool_requests, dispatch_search by done.
    change (default ∅ (Some args)) with args. rewrite search_requests by done.
    by rewrite Ha.
  - unfold local_search_options, set_threshold.
    destruct (negb _); rewrite !dom_insert_L, dom_empty_L; set_solver.
  - intros args' H. unfold call_tool. rewrite Hr. cbn [negb]. unfold try_catch.
    rewrite dispatch_add, dispatch_search.
    change (default ∅ (Some args)) with args. change (default ∅ (Some args')) with args'.
    by rewrite (local_add_agree w st m args args'), (local_search_agree w st m args args').
Qed.

(** Two local writes that differ only in [agentId]. *)
Lemma local_drops_agentId_witness :
  let w := local_world true all_ok in
  call_tool w (local_ready w) "add_memory"
    (Some (<["agentId" := JStr "a1"]> hello_u1)) fresh =
  call_tool w (local_ready w) "add_memory"
    (Some (<["agentId" := JStr "a2"]> hello_u1)) fresh.
Proof.
  intros w.
  destruct (local_drops_agentId w (local_ready w) _
              (<["agentId" := JStr "a1"]> hello_u1) fresh eq_refl eq_refl)
    as (_ & _ & _ & _ & H).
  apply H. intros k Hk. by rewrite !lookup_insert_ne.
Defined.

(** ** The output guard *)

Lemma append_cons ch (a b : string) :
  (String ch a ++ b)%string = String ch (a ++ b)%string.
Proof. reflexivity. Qed.

Lemma prefix_app p s :
  String.prefix p s = true <-> exists b, s = (p ++ b)%string.
Proof.
  revert s. induction p as [|a p IH]; intros s.
  - split; [intros _; by exists s | by destruct s].
  - destruct s as [|a' s]; [split; [done | intros [b [=]]]|].
    cbn [String.prefix]. setoid_rewrite append_cons.
    destruct (Ascii.ascii_dec a a') as [<- | Hne].
    + rewrite IH. split; intros [b Hb]; exists b; congruence.
    + split; [done | intros [b [=]]; congruence].
Qed.

(** [includes] is the substring test. *)
Lemma includes_spec s sub :
  includes s sub = true <-> exists a b, s = (a ++ sub ++ b)%string.
Proof.
  induction s as [|ch s IH]; cbn [includes].
  - rewrite orb_false_r, prefix_app. split.
    + intros [b ->]. by exists "", b.
    + intros (a & b & H). destruct a; [by exists b | discriminate].
  - rewrite orb_true_iff, prefix_app, IH. split.
    + intros [[b ->] | (a & b & ->)]; [by exists "", b | by exists (String ch a), b].
    + intros (a & b & H). destruct a as [|ch' a].
      * left. by exists b.
      * right. rewrite append_cons in H. injection H as _ ->. by exists a, b.
Qed.

Lemma apply_log_console_log f stack args c :
  console_log (apply_log f stack args c) = console_log c.
Proof.
  revert stack. induction f as [|f IH]; intros stack; simpl; [done|].
  destruct (from_mem0 _); [done | apply IH].
Qed.

Lemma logs_console_log calls c : console_log (logs calls c) = console_log c.
Proof.
  revert c. induction calls as [|call calls IH]; intros c; simpl; [done|].
  rewrite IH. apply apply_log_console_log.
Qed.

(** X1: with the guard installed, a [console.log] call made under a stack
    whose text contains "mem0ai" or "mem0-mcp" writes nothing to stdout:
    its values go to stderr, after the tag "[redirected log]". *)
Theorem guard_redirects c stack args s a b :
  stack 0%nat = Some s ->
  s = (a ++ "mem0ai" ++ b)%string \/ s = (a ++ "mem0-mcp" ++ b)%string ->
  let guarded := snd (new_SafeLogger c) in
  stdout (log stack args guarded) = stdout c /\
  stderr (log stack args guarded) = stderr c ++ [JStr "[redirected log]" :: args].
Proof.
  intros Hs Hsub guarded. unfold log, guarded. simpl.
  assert (Hm : from_mem0 (stack 0%nat) = true).
  { unfold from_mem0. rewrite Hs. simpl default. apply orb_true_iff.
    destruct Hsub as [H | H]; [left | right]; apply includes_spec; eauto. }
  by rewrite Hm.
Qed.

Lemma guard_redirects_witness :
  let c := {| console_log := native_log; stdout := []; stderr := [] |} in
  let stack := fun _ : nat => Some "at add (node_modules/mem0ai/dist/index.js:10:5)" in
  stdout (log stack [JStr "debug"] (snd (new_SafeLogger c))) = [] /\
  stderr (log stack [JStr "debug"] (snd (new_SafeLogger c))) =
    [[JStr "[redirected log]"; JStr "debug"]].
Proof.
  intros c stack.
  apply (guard_redirects c stack [JStr "debug"]
           "at add (node_modules/mem0ai/dist/index.js:10:5)"
           "at add (node_modules/" "/dist/index.js:10:5)"); [reflexivity|].
  left. reflexivity.
Defined.

(** X2: a [console.log] call never loses or duplicates a line, whatever
    [console.log] is bound to: it adds the line to exactly one of stdout and
    stderr, keeps every earlier line, and leaves [console.log] as it was.
    On stdout the values are those given; on stderr they follow the tag. *)
Theorem log_writes_one_line stack args c :
  let c' := log stack args c in
  console_log c' = console_log c /\
  ((stdout c' = stdout c ++ [args] /\ stderr c' = stderr c) \/
   (stdout c' = stdout c /\ stderr c' = stderr c ++ [JStr "[redirected log]" :: args])).
Proof.
  unfold log. split; [apply apply_log_console_log|].
  generalize (console_log c) as f. intros f. revert stack.
  induction f as [|f IH]; intros stack; simpl; [by left|].
  destruct (from_mem0 _); [by right | apply IH].
Qed.

(** X3: [restore] undoes the constructor of the guard, whatever was logged
    in between: [console.log] is again the function it was, and every line
    written meanwhile stays where it is. *)
Theorem restore_undoes_guard c calls :
  let safeLogger := fst (new_SafeLogger c) in
  let guarded := snd (new_SafeLogger c) in
  restore safeLogger guarded = c /\
  console_log (restore safeLogger (logs calls guarded)) = console_log c /\
  stdout (restore safeLogger (logs calls guarded)) = stdout (logs calls guarded) /\
  stderr (restore safeLogger (logs calls guarded)) = stderr (logs calls guarded).
Proof.
  simpl. split; [by destruct c | done].
Qed.

(** X4: the guard on Node's own [console.log] is off after every shutdown
    path (a signal, an uncaught exception, a failed start): the next
    [console.log] writes to stdout whatever stack it is called under.  The
    exit status is 0 on a signal once [server.close()] has resolved and 1 on
    the other two paths, which do not close the server; on a signal whose
    [server.close()] rejects, the rejection reaches the handler of
    [uncaughtException] and the status is 1 as well. *)
Theorem shutdown_lifts_guard c calls ev stack args :
  console_log c = native_log ->
  let safeLogger := fst (new_SafeLogger c) in
  let running :=
    {| console := logs calls (snd (new_SafeLogger c));
       server_closed := false; exit_status := None |} in
  let h := shutdown safeLogger ev running in
  stdout (log stack args (console h)) = stdout (console running) ++ [args] /\
  stderr (log stack args (console h)) = stderr (console running) /\
  match ev with
  | SIGINT (Normal _) | SIGTERM (Normal _) =>
      server_closed h = true /\ exit_status h = Some 0%Z
  | SIGINT (Abrupt _) | SIGTERM (Abrupt _) =>
      server_closed h = true /\ exit_status h = Some 1%Z
  | uncaughtException | start_failed =>
      server_closed h = false /\ exit_status h = Some 1%Z
  end.
Proof.
  intros Hn safeLogger running h.
  assert (Hc : console_log (console h) = native_log).
  { unfold h, shutdown, on_signal. by destruct ev as [[] | [] | |]. }
  assert (Ho : stdout (console h) = stdout (console running) /\
               stderr (console h) = stderr (console running)).
  { unfold h, shutdown, on_signal. by destruct ev as [[] | [] | |]. }
  destruct Ho as [Ho He]. unfold log. rewrite Hc. simpl apply_log. cbn [stdout stderr].
  rewrite Ho, He. split; [done|]. split; [done|].
  unfold h. by destruct ev as [[] | [] | |].
Qed.

Lemma shutdown_lifts_guard_witness :
  let c := {| console_log := native_log; stdout := []; stderr := [] |} in
  let stack := fun _ : nat => Some "at add (node_modules/mem0ai/dist/index.js:10:5)" in
  let h := shutdown (fst (new_SafeLogger c)) (SIGINT (Normal tt))
             {| console := logs [(stack, [JStr "a"])] (snd (new_SafeLogger c));
                server_closed := false; exit_status := None |} in
  stdout (log stack [JStr "b"] (console h)) = [[JStr "b"]].
Proof.
  intros c stack h.
  apply (shutdown_lifts_guard c [(stack, [JStr "a"])] (SIGINT (Normal tt)) stack [JStr "b"]).
  reflexivity.
Defined.

(** ** The tool list and the dispatcher *)

Lemma classic_lacks name (args : obj) :
  lacks_required name args \/ ~ lacks_required name args.
Proof.
  unfold lacks_required.
  induction (required name) as [|k ks IH].
  - right. intros (k & Hk & _). by apply elem_of_nil in Hk.
  - destruct (truthy (prop args k)) eqn:Hk.
    + destruct IH as [(k' & Hk' & Hf) | Hn].
      * left. exists k'. split; [by apply elem_of_cons; right | done].
      * right. intros (k' & [-> | Hin]%elem_of_cons & Hf); [congruence|].
        apply Hn. eauto.
    + left. exists k. split; [by apply elem_of_cons; left | done].
Qed.



Lemma schema_of_tools name :
  (name ∈ tools -> exists t, schema_of name = Some t /\ inputSchema_required t = required name
                                /\ tool_name t = name) /\
  (name ∉ tools -> schema_of name = None /\ required name = []).
Proof.
  split.
  - unfold tools. intros H.
    repeat (apply elem_of_cons in H as [-> | H]; [eexists; repeat split|]).
    by apply elem_of_nil in H.
  - intros (Ha & Hs & Hd)%not_a_tool. unfold schema_of, listTools, required.
    cbn [List.find tool_name]. rewrite !(String.eqb_sym _ name).
    apply String.eqb_neq in Ha, Hs, Hd. by rewrite Ha, Hs, Hd.
Qed.

Lemma missing_required_lacks name args :
  missing_required name args <-> lacks_required name args.
Proof.
  destruct (decide (name ∈ tools)) as [Hin | Hout].
  - destruct (proj1 (schema_of_tools name) Hin) as (t & Ht & Hr & _). split.
    + intros (t' & k & Ht' & Hk & Hf). exists k. rewrite <- Hr. split; [congruence | done].
    + intros (k & Hk & Hf). exists t, k. rewrite Hr. done.
  - destruct (proj2 (schema_of_tools name) Hout) as [Hn Hr]. split.
    + intros (t' & k & Ht' & _). congruence.
    + intros (k & Hk & _). rewrite Hr in Hk. by apply elem_of_nil in Hk.
Qed.

(** Once its required arguments are there, a handler answers, or fails
    with InternalError, or throws a TypeError object (from a template
    literal or from a [catch]). *)
Lemma valid_call_outcome w st name a rt :
  name ∈ tools ->
  ~ lacks_required name (default ∅ a) ->
  (exists r, fst (dispatch w st name a rt) = Ret r) \/
  (exists message, fst (dispatch w st name a rt) = Raise (McpError InternalError message)) \/
  (exists o, fst (dispatch w st name a rt) = Raise (JsThrow (JObj o))).
Proof.
  unfold tools. intros Hin Hl.
  assert (Hreq : forall k, k ∈ required name -> truthy (prop (default ∅ a) k) = true).
  { intros k Hk. destruct (truthy (prop (default ∅ a) k)) eqn:Ht; [done|].
    exfalso. apply Hl. by exists k. }
  clear Hl.
  repeat (apply elem_of_cons in Hin as [-> | Hin]); [| | | by apply elem_of_nil in Hin].
  - rewrite dispatch_add. unfold handleAddMemory.
    rewrite (Hreq "content"), (Hreq "userId") by (unfold required; simpl; set_solver).
    cbn [negb]. run.
    destruct (conversion_throws _); run; [unfold TypeError; eauto|].
    destruct (active_client st); run; eauto.
  - rewrite dispatch_search. unfold handleSearchMemory.
    rewrite (Hreq "query"), (Hreq "userId") by (unfold required; simpl; set_solver).
    cbn [negb]. run. unfold exn_message.
    destruct (active_client st); run; [| |eauto];
      (destruct (respond w _ _) as [v | e]; run; [eauto|]);
      (destruct (get_message w e) as [msg | x] eqn:He; run; [eauto|]);
      apply get_message_abrupt in He as [o ->]; eauto.
  - rewrite dispatch_delete. unfold handleDeleteMemory.
    rewrite (Hreq "memoryId"), (Hreq "userId") by (unfold required; simpl; set_solver).
    cbn [negb]. run. unfold exn_message.
    destruct (conversion_throws _); run; [unfold TypeError; eauto|].
    destruct (conversion_throws _); run; [unfold TypeError; eauto|].
    destruct (active_client st) as [c | m |]; run; [| |eauto].
    + destruct (respond w _ _) as [v | e]; run; [eauto|].
      destruct (respond w _ _) as [v | e']; run; [eauto|].
      destruct (get_message w e') as [msg | x] eqn:He; run; [eauto|].
      apply get_message_abrupt in He as [o ->]; eauto.
    + destruct (respond w _ _) as [v | e]; run; [eauto|].
      destruct (vectorstore_delete_is_function m); run; [|eauto 6].
      destruct (respond w _ _) as [v | e']; run; [eauto|].
      destruct (get_message w e') as [msg | x] eqn:He; run; [eauto|].
      apply get_message_abrupt in He as [o ->]; eauto.
Qed.

(** X5: what a ready server answers is decided by the tool list.  The
    caller never gets anything but an answer or an [McpError]; the error is
    MethodNotFound exactly for a name the list does not advertise,
    InvalidParams exactly for an advertised tool called with one of its
    schema's [required] arguments missing or falsy, and InternalError in
    every other failure. *)
Theorem call_tool_outcome w st name arguments rt :
  isReady st = true ->
  match fst (call_tool w st name arguments rt) with
  | Ret _ | Raise (McpError InternalError _) =>
      is_Some (schema_of name) /\ ~ missing_required name (default ∅ arguments)
  | Raise (McpError InvalidParams _) =>
      is_Some (schema_of name) /\ missing_required name (default ∅ arguments)
  | Raise (McpError MethodNotFound _) => schema_of name = None
  | Raise (JsThrow _) => False
  end.
Proof.
  intros Hr. destruct (decide (name ∈ tools)) as [Hin | Hout].
  - destruct (proj1 (schema_of_tools name) Hin) as (t & Ht & _).
    assert (Hs : is_Some (schema_of name)) by eauto.
    destruct (classic_lacks name (default ∅ arguments)) as [Hl | Hl].
    + destruct (rejected_call_tool w st name arguments rt InvalidParams Hr
                  (lacks_required_dispatch w st name arguments rt Hl)) as [msg ->].
      simpl. split; [done | by apply missing_required_lacks].
    + assert (Hm : ~ missing_required name (default ∅ arguments))
        by (by rewrite missing_required_lacks).
      destruct (valid_call_outcome w st name arguments rt Hin Hl)
        as [[r Hd] | [[msg Hd] | [o Hd]]];
        destruct (dispatch w st name arguments rt) as [r' rt'] eqn:Hdis;
        simpl in Hd; subst r'.
      * by rewrite (call_tool_ret _ _ _ _ _ _ _ Hr Hdis).
      * by rewrite (call_tool_mcp _ _ _ _ _ _ _ _ Hr Hdis).
      * unfold call_tool. rewrite Hr. cbn [negb]. unfold try_catch. rewrite Hdis.
        run. rewrite get_message_object. run. done.
  - destruct (proj2 (schema_of_tools name) Hout) as [Hn _].
    apply not_a_tool in Hout as (Ha & Hs & Hd).
    by rewrite (call_tool_mcp _ _ _ _ _ _ _ _ Hr (dispatch_unknown w st name arguments rt Ha Hs Hd)).
Qed.

(** A search with its required arguments, on a ready cloud server. *)
Lemma call_tool_outcome_witness :
  let w := cloud_world all_ok in
  is_Some (schema_of "search_memory") /\ ~ missing_required "search_memory" q_u1.
Proof.
  intros w.
  exact (call_tool_outcome w (cloud_ready w) "search_memory" (Some q_u1) fresh eq_refl).
Defined.

Lemma add_agree w st (args args' : obj) :
  (forall k, k ∈ declared "add_memory" -> args !! k = args' !! k) ->
  handleAddMemory w st args = handleAddMemory w st args'.
Proof.
  intros H.
  assert (Hp : forall k, k ∈ declared "add_memory" -> prop args k = prop args' k)
    by (intros k Hk; unfold prop; by rewrite (H k Hk)).
  unfold handleAddMemory, add_messages, cloud_add_options, local_add_options.
  by rewrite !(Hp "content"), !(Hp "userId"), !(Hp "sessionId"), !(Hp "agentId"),
    !(Hp "metadata") by (unfold declared; simpl; set_solver).
Qed.

Lemma search_agree w st (args args' : obj) :
  (forall k, k ∈ declared "search_memory" -> args !! k = args' !! k) ->
  handleSearchMemory w st args = handleSearchMemory w st args'.
Proof.
  intros H.
  assert (Hp : forall k, k ∈ declared "search_memory" -> prop args k = prop args' k)
    by (intros k Hk; unfold prop; by rewrite (H k Hk)).
  unfold handleSearchMemory, cloud_search_options, local_search_options.
  by rewrite !(Hp "query"), !(Hp "userId"), !(Hp "sessionId"), !(Hp "agentId"),
    !(Hp "filters"), !(Hp "threshold") by (unfold declared; simpl; set_solver).
Qed.

Lemma delete_agree w st (args args' : obj) :
  (forall k, k ∈ declared "delete_memory" -> args !! k = args' !! k) ->
  handleDeleteMemory w st args = handleDeleteMemory w st args'.
Proof.
  intros H.
  assert (Hp : forall k, k ∈ declared "delete_memory" -> prop args k = prop args' k)
    by (intros k Hk; unfold prop; by rewrite (H k Hk)).
  unfold handleDeleteMemory, cloud_delete_options.
  by rewrite !(Hp "memoryId"), !(Hp "userId"), !(Hp "agentId")
    by (unfold declared; simpl; set_solver).
Qed.

(** X6: a tool call reads only the arguments its schema declares.  Two
    argument objects that agree on the declared names give the same run in
    every server state: the same answer or error, the same requests, the
    same pending promises.  Any other key is ignored, in particular
    [org_id], [project_id] and [run_id]. *)
Theorem undeclared_arguments_ignored w st name (args args' : obj) rt :
  (forall k, k ∈ declared name -> args !! k = args' !! k) ->
  call_tool w st name (Some args) rt = call_tool w st name (Some args') rt.
Proof.
  intros H. unfold call_tool. destruct (isReady st); cbn [negb]; [|done].
  unfold try_catch.
  assert (Hd : dispatch w st name (Some args) = dispatch w st name (Some args')).
  { unfold dispatch. change (default ∅ (Some args)) with args.
    change (default ∅ (Some args')) with args'.
    destruct (String.eqb_spec name "add_memory") as [-> | _]; [by apply add_agree|].
    destruct (String.eqb_spec name "search_memory") as [-> | _]; [by apply search_agree|].
    destruct (String.eqb_spec name "delete_memory") as [-> | _]; [by apply delete_agree|].
    done. }
  by rewrite Hd.
Qed.

Lemma undeclared_arguments_ignored_witness :
  let w := cloud_world all_ok in
  call_tool w (cloud_ready w) "add_memory" (Some hello_u1) fresh =
  call_tool w (cloud_ready w) "add_memory" (Some (<["org_id" := JStr "evil"]> hello_u1)) fresh.
Proof.
  intros w. apply undeclared_arguments_ignored.
  intros k Hk. rewrite lookup_insert_ne; [done|].
  intros <-. vm_compute in Hk.
  repeat (apply elem_of_cons in Hk as [Hk | Hk]; [discriminate Hk|]).
  by apply elem_of_nil in Hk.
Defined.

(** X7: in Local mode a delete is decided by the memory id alone.  The
    [userId] has to be there and line 547 has to be able to print it, as it
    can every string, but its value reaches no request and no answer: two
    calls with the same [memoryId] and any two such [userId]s run
    identically. *)
Theorem local_delete_ignores_user w st m (args args' : obj) rt :
  active_client st = ActiveLocal m ->
  truthy (prop args "userId") = true ->
  truthy (prop args' "userId") = true ->
  conversion_throws (prop args "userId") = false ->
  conversion_throws (prop args' "userId") = false ->
  prop args "memoryId" = prop args' "memoryId" ->
  call_tool w st "delete_memory" (Some args) rt =
  call_tool w st "delete_memory" (Some args') rt.
Proof.
  intros Ha Hu Hu' Hp Hp' Hm. unfold call_tool. destruct (isReady st); cbn [negb]; [|done].
  unfold try_catch. rewrite !dispatch_delete.
  change (default ∅ (Some args)) with args. change (default ∅ (Some args')) with args'.
  assert (Hd : handleDeleteMemory w st args = handleDeleteMemory w st args').
  { unfold handleDeleteMemory, template. rewrite Ha, Hu, Hu', Hp, Hp', Hm. reflexivity. }
  by rewrite Hd.
Qed.

Lemma local_delete_ignores_user_witness :
  let w := local_world true all_ok in
  call_tool w (local_ready w) "delete_memory" (Some m1_u1) fresh =
  call_tool w (local_ready w) "delete_memory"
    (Some (<["userId" := JStr "someone-else"]> m1_u1)) fresh.
Proof.
  intros w.
  apply (local_delete_ignores_user w (local_ready w) _ m1_u1
           (<["userId" := JStr "someone-else"]> m1_u1) fresh eq_refl);
    reflexivity.
Defined.

(** ** What a search and a delete answer *)



(** X9: for a delete whose memoryId and userId are non-empty and can be
    printed by line 547 (as every string can), when the primary delete
    succeeds it is the only request made: the fallback is not tried, and
    the caller is told "Memory {id} deleted successfully", in Cloud and in
    Local mode. *)
Theorem delete_primary_succeeds w st args rt c v :
  isReady st = true ->
  truthy (prop args "memoryId") = true ->
  truthy (prop args "userId") = true ->
  conversion_throws (prop args "memoryId") = false ->
  conversion_throws (prop args "userId") = false ->
  delete_primary st args = Some c ->
  respond w (trace rt) c = Normal v ->
  call_tool w st "delete_memory" (Some args) rt =
    (Ret {| content :=
              [ {| type := "text";
                   text := JStr ("Memory " ++ ToString w (prop args "memoryId")
                                 ++ " deleted successfully") |} ] |},
     {| trace := trace rt ++ [Backend c]; pending := pending rt |}).
Proof.
  intros Hr Hm Hu Hpm Hpu Hc Hres. apply call_tool_ret; [done|]. rewrite dispatch_delete.
  change (default ∅ (Some args)) with args. unfold delete_primary in Hc.
  destruct (active_client st) as [cl | m |] eqn:Ha; simplify_eq.
  - rewrite (delete_cloud_run w st cl) by done. cbn zeta. by rewrite Hres.
  - rewrite (delete_local_run w st m) by done. cbn zeta. by rewrite Hres.
Qed.

Lemma delete_primary_succeeds_witness :
  let w := local_world true all_ok in
  call_tool w (local_ready w) "delete_memory" (Some m1_u1) fresh =
    (Ret (text_response (JStr "Memory m1 deleted successfully")),
     {| trace := [Backend (LocalDeleteMemory (JStr "m1"))]; pending := [] |}).
Proof.
  intros w.
  apply (delete_primary_succeeds w (local_ready w) m1_u1 fresh
           (LocalDeleteMemory (JStr "m1")) JUndefined); reflexivity.
Defined.



(** ** No retries, no queue *)

Lemma extends_refl rt : extends rt rt [] [].
Proof.
  unfold extends. rewrite !app_nil_r. split; [done|]. split; [|done].
  exists []. by rewrite app_nil_r.
Qed.

Lemma extends_diag rt rt' cs ps l x :
  extends rt rt' cs ps -> extends rt (record (Diag l x) rt') cs ps.
Proof.
  intros (Hc & [evs He] & Hp). unfold extends, record. cbn [trace pending].
  rewrite backend_calls_app, Hc. simpl. rewrite app_nil_r. split; [done|].
  split; [|done]. exists (evs ++ [Diag l x]). by rewrite He, app_assoc.
Qed.

Lemma extends_call rt rt' cs ps c :
  extends rt rt' cs ps -> extends rt (record (Backend c) rt') (cs ++ [c]) ps.
Proof.
  intros (Hc & [evs He] & Hp). unfold extends, record. cbn [trace pending].
  rewrite backend_calls_app, Hc. simpl. rewrite app_assoc. split; [done|].
  split; [|done]. exists (evs ++ [Backend c]). by rewrite He, app_assoc.
Qed.

Lemma extends_spawn rt c (p : string * completion jsval) :
  extends rt {| trace := trace rt ++ [Backend c]; pending := pending rt ++ [p] |} [c] [p].
Proof.
  unfold extends. cbn [trace pending]. rewrite backend_calls_app. simpl.
  split; [done|]. split; [by eexists | done].
Qed.

Ltac effects :=
  repeat first
    [ apply extends_diag
    | apply (extends_call _ _ [_] [])
    | apply (extends_call _ _ [] [])
    | apply extends_spawn
    | apply extends_refl ].

Ltac bounds :=
  simpl; repeat split; try lia; try done; try (intros Hne; by destruct Hne).

Lemma dispatch_effects w st name a rt :
  exists cs ps,
    extends rt (snd (dispatch w st name a rt)) cs ps /\
    length cs <= 2 /\
    (name ≠ "delete_memory" -> length cs <= 1) /\
    length ps <= 1 /\
    (name ≠ "add_memory" -> ps = []).
Proof.
  unfold dispatch.
  destruct (String.eqb_spec name "add_memory") as [-> | Hna].
  { unfold handleAddMemory. run.
    destruct (negb _); [|destruct (negb _)]; run;
      [exists [], []; split; [effects | bounds]..|].
    destruct (conversion_throws _); run; [exists [], []; split; [effects | bounds]|].
    destruct (active_client st); run.
    - eexists [_], [_]. split; [effects | bounds].
    - eexists [_], [_]. split; [effects | bounds].
    - exists [], []. split; [effects | bounds]. }
  destruct (String.eqb_spec name "search_memory") as [-> | Hns].
  { unfold handleSearchMemory. run.
    destruct (negb _); [|destruct (negb _)]; run;
      [exists [], []; split; [effects | bounds]..|].
    unfold exn_message.
    destruct (active_client st); run;
      [| |exists [], []; split; [effects | bounds]];
      (destruct (respond w _ _) as [v | e]; run;
       [eexists [_], []; split; [apply (extends_call _ _ [] []); effects
                                | bounds]|]);
      destruct (get_message w e); run;
      (eexists [_], []; split;
       [apply (extends_diag _ (record _ rt)); apply (extends_call _ _ [] []); effects
       | bounds]). }
  destruct (String.eqb_spec name "delete_memory") as [-> | Hnd].
  { unfold handleDeleteMemory. run.
    destruct (negb _); [|destruct (negb _)]; run;
      [exists [], []; split; [effects | bounds]..|].
    unfold exn_message.
    destruct (conversion_throws _); run; [exists [], []; split; [effects | bounds]|].
    destruct (conversion_throws _); run; [exists [], []; split; [effects | bounds]|].
    destruct (active_client st) as [c | m |]; run;
      [| |exists [], []; split; [effects | bounds]].
    - destruct (respond w _ _) as [v | e]; run;
        [eexists [_], []; split; [apply (extends_call _ _ [] []); effects
                                 | bounds]|].
      destruct (respond w _ _) as [v | e']; run;
        [eexists [_; _], []; split;
         [apply (extends_call _ (record _ rt) [_] []); apply (extends_call _ _ [] []); effects
         | bounds]|].
      destruct (get_message w e'); run;
        (eexists [_; _], []; split;
         [apply (extends_diag _ (record _ (record _ rt)));
          apply (extends_call _ (record _ rt) [_] []); apply (extends_call _ _ [] []); effects
         | bounds]).
    - destruct (respond w _ _) as [v | e]; run;
        [eexists [_], []; split; [apply (extends_call _ _ [] []); effects
                                 | bounds]|].
      destruct (vectorstore_delete_is_function m); run.
      + destruct (respond w _ _) as [v | e']; run;
          [eexists [_; _], []; split;
           [apply (extends_call _ (record _ rt) [_] []); apply (extends_call _ _ [] []); effects
           | bounds]|].
        destruct (get_message w e'); run;
          (eexists [_; _], []; split;
           [apply (extends_diag _ (record _ (record _ rt)));
            apply (extends_call _ (record _ rt) [_] []); apply (extends_call _ _ [] []); effects
           | bounds]).
      + eexists [_], []. split;
          [apply (extends_diag _ (record _ rt)); apply (extends_call _ _ [] []); effects
          | bounds]. }
  run. exists [], []. split; [effects | bounds].
Qed.

(** X11: one tool call makes at most two backend requests, and at most one
    unless it is a delete; nothing is ever retried.  It leaves at most one
    promise pending, and none unless it is a write; and it only adds to the
    trace.  This holds for every name, every argument object and every
    server state, whatever the backend answers. *)
Theorem call_tool_effects w st name arguments rt :
  exists cs ps,
    extends rt (snd (call_tool w st name arguments rt)) cs ps /\
    length cs <= 2 /\
    (name ≠ "delete_memory" -> length cs <= 1) /\
    length ps <= 1 /\
    (name ≠ "add_memory" -> ps = []).
Proof.
  unfold call_tool. destruct (isReady st); cbn [negb].
  - destruct (dispatch_effects w st name arguments rt) as (cs & ps & He & H).
    exists cs, ps. split; [|exact H]. unfold try_catch.
    destruct (dispatch w st name arguments rt) as [[r | [code msg | e]] rt'];
      cbn [snd] in *; run; [done | done |].
    destruct (get_message w e); run; by apply (extends_diag _ rt').
  - run. exists [], []. split; [apply extends_refl | bounds].
Qed.

(** ** The options of cloud requests *)

Lemma set_if_dom k v (o : obj) (keys : gset string) :
  k ∈ keys -> dom o ⊆ keys -> dom (set_if k v o) ⊆ keys.
Proof.
  intros Hk Ho. unfold set_if. destruct (truthy v); [|done].
  rewrite dom_insert_L. apply union_least; [by apply singleton_subseteq_l | done].
Qed.

(** X12: the options of a cloud write are the snake_case rendering of the
    arguments.  [user_id] is the [userId] and [version] is "v2"; [run_id]
    is the [sessionId], [agent_id] the [agentId] and [metadata] the
    [metadata], each present only when the argument is non-empty (truthy);
    and there is no other key than these and the two scoping identifiers,
    so no camelCase name reaches the cloud backend. *)
Theorem cloud_add_options_mapping w (args : obj) :
  let options := cloud_add_options w args in
  options !! "user_id" = Some (prop args "userId") /\
  options !! "version" = Some (JStr "v2") /\
  options !! "run_id" = scope_value (prop args "sessionId") /\
  options !! "agent_id" = scope_value (prop args "agentId") /\
  options !! "metadata" = scope_value (prop args "metadata") /\
  dom options ⊆ {["user_id"; "version"; "org_id"; "project_id";
                  "run_id"; "agent_id"; "metadata"]}.
Proof.
  unfold cloud_add_options, scope_options. cbn zeta.
  repeat split.
  - by rewrite !set_if_lookup_ne, lookup_insert_eq.
  - rewrite !set_if_lookup_ne by done. by rewrite lookup_insert_ne, lookup_insert_eq.
  - rewrite !set_if_lookup_ne by done. apply set_if_lookup_fresh.
    by rewrite !set_if_lookup_ne.
  - rewrite !set_if_lookup_ne by done. apply set_if_lookup_fresh.
    by rewrite !set_if_lookup_ne.
  - apply set_if_lookup_fresh. by rewrite !set_if_lookup_ne.
  - repeat (apply set_if_dom; [set_solver|]).
    rewrite !dom_insert_L, dom_empty_L. set_unfold.
    intros x [-> | [-> | []]]; auto 10.
Qed.

(** ** Pending writes *)



(** Two writes were started and both are rejected, the second one first:
    it is reported first. *)
Example settle_in_completion_order :
  trace (settle [1%nat; 0%nat]
           {| trace := [];
              pending := [("first", Abrupt JNull); ("second", Abrupt JNull)] |}) =
    [Diag "second" (JsThrow JNull); Diag "first" (JsThrow JNull)].
Proof. reflexivity. Qed.

(** ** How startup ends *)

(** X14: initialisation ends in one of three ways only: the process has
    exited, and then with status 1; or the server runs, ready, with the
    client of its mode and no other; or it runs not ready and without a
    client, in the state the constructor left.  The last happens exactly
    when Cloud mode was selected, the import resolved and the client's
    constructor threw; in Local mode a running server is always ready. *)
Theorem startup_outcomes w :
  match startup w with
  | Exited status => status = 1%Z
  | Running st =>
      (isReady st = true /\
       if isCloudMode st
       then cloudClient st = Some {| clientOptions := cloud_clientOptions w |} /\
            localClient st = None
       else is_Some (localClient st) /\ cloudClient st = None) \/
      st = cloud_pending
  end /\
  (startup w = Running cloud_pending <->
   truthy (getenv w "MEM0_API_KEY") = true /\
   import_mem0ai w = Normal tt /\
   exists e, new_MemoryClient w (cloud_clientOptions w) = Abrupt e) /\
  (forall st, startup w = Running st -> isCloudMode st = false -> isReady st = true).
Proof.
  unfold startup, constructor.
  destruct (truthy (getenv w "MEM0_API_KEY")) eqn:Hk.
  - simpl. unfold cloud_import_settled.
    destruct (import_mem0ai w) as [[] | e].
    2:{ split; [done|]. split; [|done]. split; [done | by intros (_ & ? & _)]. }
    destruct (new_MemoryClient w _) as [[] | e] eqn:Hn.
    + split; [by left|]. split; [|by intros st [= <-]].
      split; [done | by intros (_ & _ & e & ?)].
    + split; [by right|]. split; [|by intros st [= <-]].
      split; [intros _; repeat split; eauto | done].
  - destruct (truthy (getenv w "OPENAI_API_KEY")).
    2:{ split; [done|]. split; [|done]. split; [done | by intros (? & _)]. }
    destruct (local_branch w) as [status | st] eqn:Hl.
    + split.
      { pose proof (local_branch_outcome w) as Hb. rewrite Hl in Hb.
        destruct (local_config w) as [config|]; [|congruence].
        destruct (new_Memory w config); congruence. }
      split; [|done]. split; [done | by intros (? & _)].
    + apply local_branch_running in Hl as (Hm & Hc & Hlc & Hr).
      rewrite Hm. cbv beta iota.
      split; [left; rewrite Hm; by repeat split|].
      split; [|by intros st' [= <-]].
      split; [|by intros (? & _)].
      intros [= ->]. discriminate Hm.
Qed.

(** X15: in Local mode, VECTOR_DB_PROVIDER=qdrant without a non-empty
    VECTOR_DB_URL ends the process with status 1, whether or not the local
    client could have been built. *)
Theorem qdrant_requires_url w :
  truthy (getenv w "MEM0_API_KEY") = false ->
  truthy (getenv w "OPENAI_API_KEY") = true ->
  getenv w "VECTOR_DB_PROVIDER" = JStr "qdrant" ->
  truthy (getenv w "VECTOR_DB_URL") = false ->
  startup w = Exited 1.
Proof.
  intros Hk Ho Hp Hu. unfold startup, constructor. rewrite Hk, Ho.
  unfold local_branch, local_config, vectorStoreConfig. by rewrite Hp, Hu.
Qed.

Lemma qdrant_requires_url_witness : startup qdrant_without_url_world = Exited 1.
Proof.
  apply qdrant_requires_url; reflexivity.
Defined.

(** ** The environment after the module prelude *)

(** X16: the prelude of lines 44-50 forces DEBUG, NODE_DEBUG, DEBUG_COLORS,
    LOG_LEVEL, SILENT and QUIET, keeps a non-empty NODE_ENV and sets it to
    "production" otherwise, and touches no other variable; running it a
    second time changes nothing. *)
Theorem prelude_env_effect (e : gmap string string) :
  prelude_env e !! "DEBUG" = Some "" /\
  prelude_env e !! "NODE_DEBUG" = Some "" /\
  prelude_env e !! "DEBUG_COLORS" = Some "no" /\
  prelude_env e !! "LOG_LEVEL" = Some "error" /\
  prelude_env e !! "SILENT" = Some "true" /\
  prelude_env e !! "QUIET" = Some "true" /\
  (forall s, e !! "NODE_ENV" = Some s -> s ≠ "" -> prelude_env e !! "NODE_ENV" = Some s) /\
  (e !! "NODE_ENV" = None \/ e !! "NODE_ENV" = Some "" ->
   prelude_env e !! "NODE_ENV" = Some "production") /\
  (forall k, k ∉ ["DEBUG"; "NODE_DEBUG"; "DEBUG_COLORS"; "NODE_ENV";
                  "LOG_LEVEL"; "SILENT"; "QUIET"] ->
             prelude_env e !! k = e !! k) /\
  prelude_env (prelude_env e) = prelude_env e.
Proof.
  assert (Hne : forall e : gmap string string,
            prelude_env e !! "NODE_ENV" =
              Some match e !! "NODE_ENV" with
                   | Some s => if String.eqb s "" then "production" else s
                   | None => "production"
                   end).
  { intros e'. unfold prelude_env. cbn zeta.
    rewrite !lookup_insert_ne by done. rewrite lookup_insert_eq.
    by rewrite !lookup_insert_ne. }
  assert (Hother : forall (e : gmap string string) k,
            k ∉ ["DEBUG"; "NODE_DEBUG"; "DEBUG_COLORS"; "NODE_ENV";
                 "LOG_LEVEL"; "SILENT"; "QUIET"] ->
            prelude_env e !! k = e !! k).
  { intros e' k Hk. unfold prelude_env. cbn zeta.
    rewrite !lookup_insert_ne; [done | intros <-; apply Hk; set_solver..]. }
  assert (Hforced : forall e : gmap string string,
            prelude_env e !! "DEBUG" = Some "" /\
            prelude_env e !! "NODE_DEBUG" = Some "" /\
            prelude_env e !! "DEBUG_COLORS" = Some "no" /\
            prelude_env e !! "LOG_LEVEL" = Some "error" /\
            prelude_env e !! "SILENT" = Some "true" /\
            prelude_env e !! "QUIET" = Some "true").
  { intros e'. unfold prelude_env. cbn zeta.
    repeat split; by rewrite ?lookup_insert_eq, ?(lookup_insert_ne _ _ _ _),
                       ?lookup_insert_eq by done. }
  destruct (Hforced e) as (H1 & H2 & H3 & H4 & H5 & H6).
  repeat (split; [assumption|]).
  split; [|split; [|split; [exact (Hother e)|]]].
  - intros s Hs Hnz. rewrite Hne, Hs. apply String.eqb_neq in Hnz. by rewrite Hnz.
  - intros [Hs | Hs]; by rewrite Hne, Hs.
  - apply map_eq. intros k.
    destruct (decide (k ∈ ["DEBUG"; "NODE_DEBUG"; "DEBUG_COLORS"; "NODE_ENV";
                            "LOG_LEVEL"; "SILENT"; "QUIET"])) as [Hin | Hout];
      [|by apply Hother].
    destruct (Hforced (prelude_env e)) as (G1 & G2 & G3 & G4 & G5 & G6).
    repeat (apply elem_of_cons in Hin as [-> | Hin]); try congruence;
      [|by apply elem_of_nil in Hin].
    rewrite (Hne (prelude_env e)), (Hne e).
    destruct (e !! "NODE_ENV") as [s|]; [|done].
    destruct (String.eqb s "") eqn:Hs; [done | by rewrite Hs].
Qed.

Lemma prelude_env_effect_witness :
  prelude_env (<["NODE_ENV" := "development"]> ∅) !! "NODE_ENV" = Some "development".
Proof.
  destruct (prelude_env_effect (<["NODE_ENV" := "development"]> ∅))
    as (_ & _ & _ & _ & _ & _ & H & _).
  apply H; [reflexivity | discriminate].
Defined.

(** ** Readiness and clients *)

(** X17: in every state the server goes through, it is ready exactly when
    it holds a client, and then exactly the client of its mode: a cloud
    client and no local one in Cloud mode, a local client and no cloud one
    in Local mode. *)
Theorem ready_iff_client w st :
  lifecycle w (Running st) ->
  (isReady st = true <-> active_client st ≠ NoClient) /\
  (isReady st = false -> cloudClient st = None /\ localClient st = None) /\
  (isReady st = true ->
   if isCloudMode st
   then is_Some (cloudClient st) /\ localClient st = None
   else is_Some (localClient st) /\ cloudClient st = None).
Proof.
  intros [_ H]%lifecycle_running. unfold active_client.
  destruct (isCloudMode st).
  - destruct H as (Hl & Hc & Hn). rewrite Hl.
    destruct (isReady st).
    + destruct (Hc eq_refl) as [c Hcc]. rewrite Hcc. repeat split; eauto; done.
    + rewrite (Hn eq_refl). repeat split; done.
  - destruct H as (Hc & [m Hl] & Hr). rewrite Hc, Hl, Hr.
    repeat split; eauto; done.
Qed.

Lemma ready_iff_client_witness :
  let w := cloud_world all_ok in
  isReady (cloud_ready w) = true <-> active_client (cloud_ready w) ≠ NoClient.
Proof.
  intros w.
  apply (ready_iff_client w (cloud_ready w)).
  exact (lc_import_settled w cloud_pending eq_refl eq_refl).
Defined.

(** ** Messages of failed calls *)

(** X18: the InvalidParams error names the first required argument, in the
    order of the schema's [required] list, that is missing or falsy:
    "Missing required argument: " followed by its name. *)
Theorem invalid_params_message w st name arguments rt k :
  isReady st = true ->
  first_missing name (default ∅ arguments) = Some k ->
  call_tool w st name arguments rt =
    (Raise (McpError InvalidParams ("Missing required argument: " ++ k)), rt).
Proof.
  intros Hr Hk. apply call_tool_mcp; [done|].
  unfold first_missing, required in Hk. unfold dispatch.
  destruct (String.eqb name "add_memory").
  { unfold handleAddMemory. cbn [List.find] in Hk.
    destruct (negb (truthy (prop _ "content"))); [by injection Hk as <-|].
    destruct (negb (truthy (prop _ "userId"))); [by injection Hk as <- | done]. }
  destruct (String.eqb name "search_memory").
  { unfold handleSearchMemory. cbn [List.find] in Hk.
    destruct (negb (truthy (prop _ "query"))); [by injection Hk as <-|].
    destruct (negb (truthy (prop _ "userId"))); [by injection Hk as <- | done]. }
  destruct (String.eqb name "delete_memory"); [|done].
  unfold handleDeleteMemory. cbn [List.find] in Hk.
  destruct (negb (truthy (prop _ "memoryId"))); [by injection Hk as <-|].
  destruct (negb (truthy (prop _ "userId"))); [by injection Hk as <- | done].
Qed.

(** No arguments at all: the first required one is named. *)
Lemma invalid_params_message_witness :
  let w := cloud_world all_ok in
  call_tool w (cloud_ready w) "delete_memory" None fresh =
    (Raise (McpError InvalidParams "Missing required argument: memoryId"), fresh).
Proof.
  intros w.
  apply (invalid_params_message w (cloud_ready w) "delete_memory" None fresh "memoryId");
    reflexivity.
Defined.

(** X19: in Local mode, for a delete whose memoryId and userId are
    non-empty and can be printed by line 547 (as every string can), when
    the primary delete and the vector-store delete both throw and the
    second error has no message (absent, empty or otherwise falsy), the
    caller is told "Local client does not support memory deletion", the
    text of the case in which there is no vector-store delete at all. *)
Theorem local_delete_default_message w st m args rt e o :
  isReady st = true ->
  active_client st = ActiveLocal m ->
  vectorstore_delete_is_function m = true ->
  truthy (prop args "memoryId") = true ->
  truthy (prop args "userId") = true ->
  conversion_throws (prop args "memoryId") = false ->
  conversion_throws (prop args "userId") = false ->
  let primary := LocalDeleteMemory (prop args "memoryId") in
  let fallback := VectorStoreDelete (<["ids" := JArr [prop args "memoryId"]]> ∅) in
  respond w (trace rt) primary = Abrupt e ->
  respond w (trace rt ++ [Backend primary]) fallback = Abrupt (JObj o) ->
  truthy (prop o "message") = false ->
  fst (call_tool w st "delete_memory" (Some args) rt) =
    Raise (McpError InternalError
             "Error deleting memory: Local client does not support memory deletion").
Proof.
  intros Hr Ha Hv Hm Hu Hpm Hpu primary fallback Hp Hf Hmsg.
  erewrite call_tool_mcp; [reflexivity | done |].
  rewrite dispatch_delete. change (default ∅ (Some args)) with args.
  rewrite (delete_local_run w st m) by done. cbn zeta. fold primary fallback.
  rewrite Hp, Hv. cbn [record trace]. rewrite Hf, get_message_object.
  unfold js_or. rewrite Hmsg. reflexivity.
Qed.

Lemma local_delete_default_message_witness :
  let w := local_world true fails_silently in
  fst (call_tool w (local_ready w) "delete_memory" (Some m1_u1) fresh) =
    Raise (McpError InternalError
             "Error deleting memory: Local client does not support memory deletion").
Proof.
  intros w.
  apply (local_delete_default_message w (local_ready w) _ m1_u1 fresh
           (Error_ "") (<["message" := JStr ""]> ∅) eq_refl eq_refl);
    reflexivity.
Defined.

(** X20: when a search is rejected with [undefined] or [null], reading
    [error.message] in the handler's [catch] throws a TypeError; the
    request handler's [catch] wraps that one, so the caller gets
    InternalError "Error executing tool: " followed by the TypeError's
    message, and the failure is reported twice on the diagnostic channel. *)
Theorem search_rejected_with_nullish w st args rt c e :
  isReady st = true ->
  truthy (prop args "query") = true ->
  truthy (prop args "userId") = true ->
  search_request w st args = Some c ->
  e = JUndefined \/ e = JNull ->
  respond w (trace rt) c = Abrupt e ->
  call_tool w st "search_memory" (Some args) rt =
    (Raise (McpError InternalError
              ("Error executing tool: " ++
               ToString w (js_or (JStr (type_error_message w e)) (JStr "Unknown error")))),
     {| trace := trace rt ++
                   [Backend c; Diag (search_label st) (JsThrow e);
                    Diag "Error executing tool:" (JsThrow (TypeError w e))];
        pending := pending rt |}).
Proof.
  intros Hr Hq Hu Hc He Hres. unfold search_request, search_label in *.
  unfold call_tool. rewrite Hr. cbn [negb]. unfold try_catch.
  rewrite dispatch_search. change (default ∅ (Some args)) with args.
  unfold handleSearchMemory. rewrite Hq, Hu. cbn [negb].
  destruct (active_client st); simplify_eq; run; rewrite Hres; run;
    unfold exn_message; destruct He as [-> | ->]; cbn [get_message]; run;
    unfold TypeError; rewrite get_message_object; run;
    unfold prop; rewrite lookup_insert_eq; cbn [default from_option id].
  all: by rewrite <- !app_assoc.
Qed.

Lemma search_rejected_with_nullish_witness :
  let w := cloud_world rejects_with_null in
  fst (call_tool w (cloud_ready w) "search_memory" (Some q_u1) fresh) =
    Raise (McpError InternalError
             "Error executing tool: Cannot read properties of undefined").
Proof.
  intros w.
  by rewrite (search_rejected_with_nullish w (cloud_ready w) q_u1 fresh
                (CloudSearch (JStr "q") (cloud_search_options w q_u1)) JNull
                eq_refl eq_refl eq_refl eq_refl (or_intror eq_refl) eq_refl).
Defined.

(** ** Arguments that cannot be printed *)

(** X21: a write whose userId, or a delete whose memoryId or userId, is
    non-empty but cannot be converted to a string (an object with an own
    [toString] property, or an array holding one) fails at the log line of
    line 396 or 547, before any backend request: the TypeError of the
    conversion is reported once on the diagnostic channel and the caller
    gets InternalError "Error executing tool: " followed by its message. *)
Theorem unprintable_argument_fails w st args rt :
  isReady st = true ->
  let failed v :=
    (Raise (McpError InternalError
              ("Error executing tool: " ++
               ToString w (js_or (JStr (type_error_message w v)) (JStr "Unknown error")))),
     {| trace := trace rt ++ [Diag "Error executing tool:" (JsThrow (TypeError w v))];
        pending := pending rt |}) in
  (truthy (prop args "content") = true ->
   truthy (prop args "userId") = true ->
   conversion_throws (prop args "userId") = true ->
   call_tool w st "add_memory" (Some args) rt = failed (prop args "userId")) /\
  (truthy (prop args "memoryId") = true ->
   truthy (prop args "userId") = true ->
   conversion_throws (prop args "memoryId") = true ->
   call_tool w st "delete_memory" (Some args) rt = failed (prop args "memoryId")) /\
  (truthy (prop args "memoryId") = true ->
   truthy (prop args "userId") = true ->
   conversion_throws (prop args "memoryId") = false ->
   conversion_throws (prop args "userId") = true ->
   call_tool w st "delete_memory" (Some args) rt = failed (prop args "userId")).
Proof.
  intros Hr failed. unfold failed, call_tool. rewrite Hr. cbn [negb]. unfold try_catch.
  rewrite dispatch_add, dispatch_delete. change (default ∅ (Some args)) with args.
  split; [|split].
  - intros Hc Hu Hp. unfold handleAddMemory. rewrite Hc, Hu. cbn [negb]. run.
    rewrite Hp. run. unfold TypeError at 1. rewrite get_message_object. run.
    unfold prop at 1. by rewrite lookup_insert_eq.
  - intros Hm Hu Hp. unfold handleDeleteMemory. rewrite Hm, Hu. cbn [negb]. run.
    rewrite Hp. run. unfold TypeError at 1. rewrite get_message_object. run.
    unfold prop at 1. by rewrite lookup_insert_eq.
  - intros Hm Hu Hpm Hp. unfold handleDeleteMemory. rewrite Hm, Hu. cbn [negb]. run.
    rewrite Hpm, Hp. run. unfold TypeError at 1. rewrite get_message_object. run.
    unfold prop at 1. by rewrite lookup_insert_eq.
Qed.

(** A write for the user [{ "toString": "x" }] makes no request. *)
Lemma unprintable_argument_fails_witness :
  let w := cloud_world all_ok in
  backend_calls (trace (snd (call_tool w (cloud_ready w) "add_memory"
                               (Some (<["userId" := unprintable]> hello_u1)) fresh))) = [] /\
  exists message,
    fst (call_tool w (cloud_ready w) "add_memory"
           (Some (<["userId" := unprintable]> hello_u1)) fresh) =
      Raise (McpError InternalError message).
Proof.
  intros w.
  destruct (unprintable_argument_fails w (cloud_ready w)
              (<["userId" := unprintable]> hello_u1) fresh eq_refl) as (H & _).
  rewrite (H eq_refl eq_refl eq_refl). split; [reflexivity | by eexists].
Defined.
